(** * AnimeWaifu: the procedural animation engine

    A shallow embedding of the per-frame animation code of the avatar
    component (lip sync, blinking, emotion cross-fade, pose selection), of the
    audio-level analysis of the ElevenLabs service and of the emotion-tag
    parser of the Gemini service, with the properties of the design document
    stated over them.

    JavaScript numbers are modelled as exact rationals ([Q]): every
    arithmetic expression of the source is kept as written and evaluated
    without rounding.  Statements about ranges, monotonicity, indices and
    comparisons on given values are made over this model.  Where a
    statement turns on the exact frame at which a sum of frame times
    reaches a bound, the code is modelled a second time over binary64
    floats, the numbers JavaScript computes with (module [Avatar64]).
    [Math.sin], [Math.PI] and [Math.random] are not computed here: the sine
    and pi are parameters of the frame functions and each random draw is an
    explicit argument. *)

From Stdlib Require Import QArith Qround Lqa ZArith Lia List Bool Ascii String.
From Stdlib Require PrimFloat.
Import ListNotations.

Open Scope Q_scope.

(** ** Numbers *)

Module JS.

Definition ltb (a b : Q) : bool := negb (Qle_bool b a).
Definition leb (a b : Q) : bool := Qle_bool a b.

(** [Math.min] and [Math.max] on two arguments. *)
Definition Math_min (a b : Q) : Q := if Qle_bool a b then a else b.
Definition Math_max (a b : Q) : Q := if Qle_bool a b then b else a.

(** [Math.floor], as an integer. *)
Definition Math_floor (a : Q) : Z := Qfloor a.

(** The idiom [Math.max(0, Math.min(1, v))] of the source. *)
Definition clamp01 (v : Q) : Q := Math_max 0 (Math_min 1 v).

End JS.

(** ** Audio level extraction (services/elevenLabsService.ts) *)

Module ElevenLabs.

(** What [notifyState] hands to the registered callback. *)
Record AudioState := mkAudioState {
  st_isPlaying : bool;
  st_audioLevel : Q
}.

(** The fields of [ElevenLabsTTSService] that the analysis loop reads or
    writes.  [analyser] stands for "[analyser] and [dataArray] are both
    non-null" (they are created together by [setupAudioContext]);
    [animationFrameId] for "the field holds a frame handle".  [pending] is
    not a field of the class: it records whether the browser still holds a
    requested frame callback that was neither run nor cancelled. *)
Record Service := mkService {
  analyser : bool;
  isPlaying : bool;
  animationFrameId : bool;
  currentAudioLevel : Q;
  pending : bool
}.

Definition initial : Service :=
  {| analyser := false; isPlaying := false; animationFrameId := false;
     currentAudioLevel := 0; pending := false |}.

Definition notifyState (s : Service) : AudioState :=
  {| st_isPlaying := isPlaying s; st_audioLevel := currentAudioLevel s |}.

(** An AudioFrame: the byte magnitudes written by [getByteFrequencyData]. *)
Definition AudioFrame := list Z.

Definition voiceRangeStart : nat := 2.
Definition voiceRangeEnd (dataArray : AudioFrame) : nat :=
  Nat.min 20 (List.length dataArray).

(** [for (let i = voiceRangeStart; i < voiceRangeEnd; i++) sum += dataArray[i]] *)
Definition sum_bins (dataArray : AudioFrame) (lo hi : nat) : Z :=
  fold_left (fun sum i => (sum + nth i dataArray 0)%Z) (seq lo (hi - lo)) 0%Z.

(** The data array has [frequencyBinCount] = 128 entries.  On an array of
    two entries or fewer JavaScript would divide by zero or by a negative
    count; the statements below are about arrays of at least 20 entries. *)
Definition average (dataArray : AudioFrame) : Q :=
  inject_Z (sum_bins dataArray voiceRangeStart (voiceRangeEnd dataArray))
  / inject_Z (Z.of_nat (voiceRangeEnd dataArray) - Z.of_nat voiceRangeStart).

(** [Math.min(1, Math.max(0, (average - 30) / 150))] *)
Definition normalized (dataArray : AudioFrame) : Q :=
  JS.Math_min 1 (JS.Math_max 0 ((average dataArray - 30) / 150)).

(** One run of the [analyze] closure; [dataArray] is the frame the analyser
    delivers on this run.  The result is the new service state and the state
    published through [notifyState]. *)
Definition analyze (s : Service) (dataArray : AudioFrame) : Service * AudioState :=
  if negb (analyser s) || negb (isPlaying s) then
    let s' := {| analyser := analyser s; isPlaying := isPlaying s;
                 animationFrameId := animationFrameId s;
                 currentAudioLevel := 0; pending := pending s |} in
    (s', notifyState s')
  else
    let s' := {| analyser := analyser s; isPlaying := isPlaying s;
                 animationFrameId := true;
                 currentAudioLevel :=
                   currentAudioLevel s * 0.3 + normalized dataArray * 0.7;
                 pending := true |} in
    (s', notifyState s').

(** [cancelAnimationFrame(this.animationFrameId)] under its guard. *)
Definition cancel_if_set (s : Service) : Service :=
  {| analyser := analyser s; isPlaying := isPlaying s;
     animationFrameId := animationFrameId s;
     currentAudioLevel := currentAudioLevel s;
     pending := if animationFrameId s then false else pending s |}.

Definition startAudioAnalysis (s : Service) (dataArray : AudioFrame)
  : Service * AudioState :=
  analyze (cancel_if_set s) dataArray.

Definition stopAudioAnalysis (s : Service) : Service * AudioState :=
  let s0 := cancel_if_set s in
  let s' := {| analyser := analyser s0; isPlaying := isPlaying s0;
               animationFrameId := false; currentAudioLevel := 0;
               pending := pending s0 |} in
  (s', notifyState s').

(** [setupAudioContext]: the analyser and its data array exist afterwards. *)
Definition setupAudioContext (s : Service) : Service :=
  {| analyser := true; isPlaying := isPlaying s;
     animationFrameId := animationFrameId s;
     currentAudioLevel := currentAudioLevel s; pending := pending s |}.

Definition set_isPlaying (b : bool) (s : Service) : Service :=
  {| analyser := analyser s; isPlaying := b;
     animationFrameId := animationFrameId s;
     currentAudioLevel := currentAudioLevel s; pending := pending s |}.

(** The [audio.onplay] handler. *)
Definition onplay (s : Service) (dataArray : AudioFrame) : Service * AudioState :=
  startAudioAnalysis (set_isPlaying true s) dataArray.

(** The [audio.onended] and [audio.onerror] handlers. *)
Definition onended (s : Service) : Service * AudioState :=
  stopAudioAnalysis (set_isPlaying false s).

(** [stop()], as far as the analysis state goes. *)
Definition stop (s : Service) : Service * AudioState :=
  stopAudioAnalysis (set_isPlaying false s).

(** The requested frame callback fires: the browser forgets the request and
    runs [analyze]. *)
Definition frame (s : Service) (dataArray : AudioFrame) : Service * AudioState :=
  analyze {| analyser := analyser s; isPlaying := isPlaying s;
             animationFrameId := animationFrameId s;
             currentAudioLevel := currentAudioLevel s; pending := false |}
          dataArray.

(** The [catch] block of [speak]: playback is off, the state is published. *)
Definition speakFailed (s : Service) : Service * AudioState :=
  let s' := set_isPlaying false s in (s', notifyState s').

(** What can happen to the service between two observations. *)
Inductive Event :=
| EvSetup
| EvPlay (dataArray : AudioFrame)
| EvFrame (dataArray : AudioFrame)
| EvEnded
| EvStop
| EvFailed.

Definition step (s : Service) (e : Event) : Service * option AudioState :=
  match e with
  | EvSetup => (setupAudioContext s, None)
  | EvPlay d => let (s', a) := onplay s d in (s', Some a)
  | EvFrame d =>
      if pending s then let (s', a) := frame s d in (s', Some a)
      else (s, None)
  | EvEnded => let (s', a) := onended s in (s', Some a)
  | EvStop => let (s', a) := stop s in (s', Some a)
  | EvFailed => let (s', a) := speakFailed s in (s', Some a)
  end.

(** Run a list of events, collecting every published state. *)
Fixpoint run (s : Service) (es : list Event) : Service * list AudioState :=
  match es with
  | [] => (s, [])
  | e :: es' =>
      let (s1, o) := step s e in
      let (s2, outs) := run s1 es' in
      (s2, match o with Some a => a :: outs | None => outs end)
  end.

(** The mean the design document describes: bins 2 through 20 inclusive,
    19 bins.  Written from the document, to be compared with [average]. *)
Definition spec_mean_2_to_20 (dataArray : AudioFrame) : Q :=
  inject_Z (sum_bins dataArray 2 21) / 19.

Definition spec_raw_level (dataArray : AudioFrame) : Q :=
  JS.clamp01 ((spec_mean_2_to_20 dataArray - 30) / 150).

End ElevenLabs.

(** ** Emotion tags and the reply parser (services/geminiService.ts) *)

Module Gemini.

Open Scope string_scope.

(** The [EmotionTag] union type. *)
Inductive EmotionTag :=
| happy | angry | sad | surprised | embarrassed | loving | worried
| annoyed | excited | neutral | shy | proud | confused.

Definition EmotionTag_eqb (a b : EmotionTag) : bool :=
  match a, b with
  | happy, happy | angry, angry | sad, sad | surprised, surprised
  | embarrassed, embarrassed | loving, loving | worried, worried
  | annoyed, annoyed | excited, excited | neutral, neutral | shy, shy
  | proud, proud | confused, confused => true
  | _, _ => false
  end.

Definition all_tags : list EmotionTag :=
  [happy; angry; sad; surprised; embarrassed; loving; worried;
   annoyed; excited; neutral; shy; proud; confused].

(** The string literal of each member of the union. *)
Definition tag_name (e : EmotionTag) : string :=
  match e with
  | happy => "happy" | angry => "angry" | sad => "sad"
  | surprised => "surprised" | embarrassed => "embarrassed"
  | loving => "loving" | worried => "worried" | annoyed => "annoyed"
  | excited => "excited" | neutral => "neutral" | shy => "shy"
  | proud => "proud" | confused => "confused"
  end.

(** Whether a run-time string is one of the thirteen literals. *)
Definition recognized (s : string) : bool :=
  existsb (fun e => String.eqb s (tag_name e)) all_tags.

(** The run-time value behind [WaifuResponse]: [emotion] is whatever string
    the parser stored; the cast [as EmotionTag] performs no check. *)
Record WaifuResponse := mkWaifuResponse {
  emotion : string;
  text : string;
  rawResponse : string
}.

(** Characters are code units below 256. *)
Definition in_range (lo hi : nat) (c : ascii) : bool :=
  (Nat.leb lo (nat_of_ascii c) && Nat.leb (nat_of_ascii c) hi)%bool.

(** The class [\w]: ASCII letters, digits and the underscore. *)
Definition is_word (c : ascii) : bool :=
  (in_range 65 90 c || in_range 97 122 c || in_range 48 57 c
   || Ascii.eqb c "_")%bool.

(** The class [\s] (and what [trim] strips), below code unit 256. *)
Definition is_space (c : ascii) : bool :=
  (in_range 9 13 c || Ascii.eqb c " " || Nat.eqb (nat_of_ascii c) 160)%bool.

(** The longest prefix of word characters, and what follows it. *)
Fixpoint span_word (s : string) : string * string :=
  match s with
  | String c s' =>
      if is_word c then let (w, r) := span_word s' in (String c w, r)
      else (EmptyString, s)
  | EmptyString => (EmptyString, EmptyString)
  end.

(** [response.match(/^\[(\w+)\]/)]: the captured word and the rest of the
    string after the closing bracket, when the pattern matches. *)
Definition match_tag (response : string) : option (string * string) :=
  match response with
  | String "[" s =>
      match span_word s with
      | (String c w, String "]" rest) => Some (String c w, rest)
      | _ => None
      end
  | _ => None
  end.

Definition lower_char (c : ascii) : ascii :=
  if in_range 65 90 c then ascii_of_nat (nat_of_ascii c + 32) else c.

(** [toLowerCase] on a string of word characters. *)
Fixpoint toLowerCase (s : string) : string :=
  match s with
  | String c s' => String (lower_char c) (toLowerCase s')
  | EmptyString => EmptyString
  end.

Fixpoint trimStart (s : string) : string :=
  match s with
  | String c s' => if is_space c then trimStart s' else s
  | EmptyString => EmptyString
  end.

Fixpoint trimEnd (s : string) : string :=
  match s with
  | String c s' =>
      match trimEnd s' with
      | EmptyString => if is_space c then EmptyString else String c EmptyString
      | t => String c t
      end
  | EmptyString => EmptyString
  end.

Definition trim (s : string) : string := trimEnd (trimStart s).

Definition parseEmotionFromResponse (response : string) : WaifuResponse :=
  match match_tag response with
  | Some (word, rest) =>
      {| emotion := toLowerCase word;
         (* response.replace(/^\[\w+\]\s*/, '').trim() *)
         text := trim (trimStart rest);
         rawResponse := response |}
  | None =>
      {| emotion := "neutral";
         text := trim response;
         rawResponse := response |}
  end.

End Gemini.

(** ** The avatar's frame callback (components/Avatar.tsx) *)

Module Avatar.

Import Gemini.

(** The members of [VRMExpressionPresetName] the component touches. *)
Inductive VRMExpressionPresetName :=
| Aa | Oh | Blink | Happy | Angry | Sad | Surprised | Relaxed | Neutral.

Definition preset_eqb (a b : VRMExpressionPresetName) : bool :=
  match a, b with
  | Aa, Aa | Oh, Oh | Blink, Blink | Happy, Happy | Angry, Angry | Sad, Sad
  | Surprised, Surprised | Relaxed, Relaxed | Neutral, Neutral => true
  | _, _ => false
  end.

(** The expression manager of the loaded model, seen as the weight it holds
    for each preset.  Every preset is taken to be registered by the model.
    As in three-vrm, [setValue] stores the weight saturated to [0,1] and
    [getValue] reads it back; the frame callback itself only ever hands it
    weights it has computed as below. *)
Definition ExpressionManager := VRMExpressionPresetName -> Q.

Definition getValue (em : ExpressionManager) (name : VRMExpressionPresetName) : Q :=
  em name.

Definition setValue (em : ExpressionManager) (name : VRMExpressionPresetName)
  (weight : Q) : ExpressionManager :=
  fun n => if preset_eqb n name then JS.clamp01 weight else em n.

Definition no_expression : ExpressionManager := fun _ => 0.

(** [emotionToVRMExpression]; [None] is the [null] entry. *)
Definition emotionToVRMExpression (e : EmotionTag) : option VRMExpressionPresetName :=
  match e with
  | happy => Some Happy
  | angry => Some Angry
  | sad => Some Sad
  | surprised => Some Surprised
  | embarrassed => None
  | loving => Some Relaxed
  | worried => Some Sad
  | annoyed => Some Angry
  | excited => Some Happy
  | neutral => Some Neutral
  | shy => None
  | proud => Some Happy
  | confused => Some Surprised
  end.

(** The animation state refs. *)
Record LipSync := mkLipSync { value : Q; smoothedLevel : Q }.
Record BlinkState := mkBlink { timer : Q; isBlinking : bool }.
Record EmotionState := mkEmotion { current : EmotionTag; blendValue : Q }.

Definition lipSync0 : LipSync := {| value := 0; smoothedLevel := 0 |}.
Definition blink0 : BlinkState := {| timer := 0; isBlinking := false |}.
Definition emotion0 : EmotionState := {| current := neutral; blendValue := 0 |}.

(** Bone rotations and poses. *)
Record Rot := rot { x : Q; y : Q; z : Q }.

Record PoseData := mkPose {
  spine : Rot; chest : Rot; head : Rot;
  leftShoulder : Rot; rightShoulder : Rot;
  leftUpperArm : Rot; rightUpperArm : Rot;
  leftLowerArm : Rot; rightLowerArm : Rot;
  leftHand : Rot; rightHand : Rot;
  hips : Rot; leftUpperLeg : Rot; rightUpperLeg : Rot
}.

Definition poseRelaxed : PoseData := {|
  spine := rot 0.03 0 0; chest := rot 0.02 0 0; head := rot 0.05 0 0.02;
  leftShoulder := rot 0 0 0; rightShoulder := rot 0 0 0;
  leftUpperArm := rot 0.3 0.2 1.1; rightUpperArm := rot 0.3 (-0.2) (-1.1);
  leftLowerArm := rot 0 (-0.8) 0; rightLowerArm := rot 0 0.8 0;
  leftHand := rot 0 0.2 0; rightHand := rot 0 (-0.2) 0;
  hips := rot 0 0 0;
  leftUpperLeg := rot 0 0 0.02; rightUpperLeg := rot 0 0 (-0.02) |}.

Definition poseArmsCrossed : PoseData := {|
  spine := rot 0.02 0 0; chest := rot 0 0 0; head := rot 0.03 0.05 0;
  leftShoulder := rot 0.1 0 0; rightShoulder := rot 0.1 0 0;
  leftUpperArm := rot 0.5 0.4 1.2; rightUpperArm := rot 0.5 (-0.4) (-1.2);
  leftLowerArm := rot 0 (-1.4) 0.2; rightLowerArm := rot 0 1.4 (-0.2);
  leftHand := rot 0.2 0.2 0; rightHand := rot 0.2 (-0.2) 0;
  hips := rot 0 0 0;
  leftUpperLeg := rot 0 0 0.02; rightUpperLeg := rot 0 0 (-0.02) |}.

Definition poseWaving : PoseData := {|
  spine := rot 0.02 0.02 0; chest := rot 0 0.03 0; head := rot 0.05 0.08 0.03;
  leftShoulder := rot 0 0 0; rightShoulder := rot 0 0 0;
  leftUpperArm := rot 0.2 0.1 1.2; rightUpperArm := rot (-0.3) (-0.3) (-0.4);
  leftLowerArm := rot 0 (-0.5) 0; rightLowerArm := rot 0.2 1.0 0;
  leftHand := rot 0 0.1 0; rightHand := rot 0.2 (-0.1) 0.1;
  hips := rot 0 0 0;
  leftUpperLeg := rot 0.02 0 0.02; rightUpperLeg := rot (-0.02) 0 (-0.02) |}.

Definition poseShy : PoseData := {|
  spine := rot 0.05 0 0; chest := rot 0.03 0 0; head := rot 0.12 (-0.05) 0.05;
  leftShoulder := rot 0.1 0 0; rightShoulder := rot 0.1 0 0;
  leftUpperArm := rot 0.6 0.3 1.0; rightUpperArm := rot 0.6 (-0.3) (-1.0);
  leftLowerArm := rot 0.2 (-1.2) 0; rightLowerArm := rot 0.2 1.2 0;
  leftHand := rot (-0.1) 0.2 0; rightHand := rot (-0.1) (-0.2) 0;
  hips := rot 0 0 0;
  leftUpperLeg := rot 0 0 0.04; rightUpperLeg := rot 0 0 (-0.04) |}.

Definition poseTouchingHead : PoseData := {|
  spine := rot 0.02 0.02 0; chest := rot (-0.02) 0.03 0; head := rot 0.05 0.1 0.03;
  leftShoulder := rot 0 0 0; rightShoulder := rot 0 0 0;
  leftUpperArm := rot 0.2 0.1 1.2; rightUpperArm := rot (-0.8) (-0.4) (-0.2);
  leftLowerArm := rot 0 (-0.4) 0; rightLowerArm := rot 0.3 0.9 0;
  leftHand := rot 0 0.1 0; rightHand := rot 0.2 (-0.1) 0.1;
  hips := rot 0 0 0.02;
  leftUpperLeg := rot 0 0 0.03; rightUpperLeg := rot 0.03 0 (-0.02) |}.

Definition poses : list PoseData :=
  [poseRelaxed; poseArmsCrossed; poseWaving; poseShy; poseTouchingHead].

(** [poses[i]]; every index the component stores is below [poses.length]. *)
Definition pose_at (i : nat) : PoseData := nth i poses poseRelaxed.

Record PoseAnim := mkPoseAnim {
  currentPoseIndex : nat;
  targetPoseIndex : nat;
  blendFactor : Q;
  poseTimer : Q;
  lastPoseChange : Q;
  currentPose : PoseData
}.

Definition poseAnim0 : PoseAnim := {|
  currentPoseIndex := 0; targetPoseIndex := 0; blendFactor := 1;
  poseTimer := 0; lastPoseChange := 0; currentPose := poseRelaxed |}.

Definition lerpValue (from to t : Q) : Q := from + (to - from) * t.

Definition lerpRotation (from to : Rot) (t : Q) : Rot :=
  {| x := lerpValue (x from) (x to) t;
     y := lerpValue (y from) (y to) t;
     z := lerpValue (z from) (z to) t |}.

Definition easeInOutCubic (t : Q) : Q :=
  if JS.ltb t 0.5 then 4 * t * t * t
  else 1 - ((-2 * t + 2) * (-2 * t + 2) * (-2 * t + 2)) / 2.

Definition lerpPose (fromPose toPose : PoseData) (t : Q) : PoseData := {|
  spine := lerpRotation (spine fromPose) (spine toPose) t;
  chest := lerpRotation (chest fromPose) (chest toPose) t;
  head := lerpRotation (head fromPose) (head toPose) t;
  leftShoulder := lerpRotation (leftShoulder fromPose) (leftShoulder toPose) t;
  rightShoulder := lerpRotation (rightShoulder fromPose) (rightShoulder toPose) t;
  leftUpperArm := lerpRotation (leftUpperArm fromPose) (leftUpperArm toPose) t;
  rightUpperArm := lerpRotation (rightUpperArm fromPose) (rightUpperArm toPose) t;
  leftLowerArm := lerpRotation (leftLowerArm fromPose) (leftLowerArm toPose) t;
  rightLowerArm := lerpRotation (rightLowerArm fromPose) (rightLowerArm toPose) t;
  leftHand := lerpRotation (leftHand fromPose) (leftHand toPose) t;
  rightHand := lerpRotation (rightHand fromPose) (rightHand toPose) t;
  hips := lerpRotation (hips fromPose) (hips toPose) t;
  leftUpperLeg := lerpRotation (leftUpperLeg fromPose) (leftUpperLeg toPose) t;
  rightUpperLeg := lerpRotation (rightUpperLeg fromPose) (rightUpperLeg toPose) t |}.

Section Frame.

(** [Math.sin] and [Math.PI]. *)
Variable Math_sin : Q -> Q.
Variable Math_PI : Q.

(** *** Lip sync *)

(** The three branches, in source order.  [time] is the clock's elapsed
    time and [random] the value [Math.random()] returns in the fallback. *)
Definition lipSync_real (audioLevel time : Q) (ls : LipSync) : LipSync :=
  let smoothed := smoothedLevel ls * 0.4 + audioLevel * 0.6 in
  let variation := Math_sin (time * 15) * 0.1 in
  {| value := JS.Math_max 0 (JS.Math_min 1 (smoothed + variation));
     smoothedLevel := smoothed |}.

Definition lipSync_simulated (time random : Q) (ls : LipSync) : LipSync :=
  let wave1 := Math_sin (time * 12) * 0.3 in
  let wave2 := Math_sin (time * 18) * 0.2 in
  let wave3 := Math_sin (time * 25) * 0.15 in
  let randomVariation := random * 0.1 in
  {| value := JS.Math_max 0 (JS.Math_min 1
                (0.3 + wave1 + wave2 + wave3 + randomVariation));
     smoothedLevel := smoothedLevel ls |}.

Definition lipSync_close (ls : LipSync) : LipSync :=
  {| value := value ls * 0.85; smoothedLevel := 0 |}.

Definition lipSyncTick (isSpeaking : bool) (audioLevel time random : Q)
  (ls : LipSync) : LipSync :=
  if isSpeaking && JS.ltb 0 audioLevel then lipSync_real audioLevel time ls
  else if isSpeaking then lipSync_simulated time random ls
  else lipSync_close ls.

Definition mouthOpenValue (ls : LipSync) : Q :=
  JS.Math_max 0 (JS.Math_min 1 (value ls)).

(** The weights handed to [setValue] for the two mouth shapes. *)
Definition primaryOpen (ls : LipSync) : Q := mouthOpenValue ls * 0.9.
Definition roundedOpen (ls : LipSync) : Q := mouthOpenValue ls * 0.4.

Definition applyMouth (ls : LipSync) (em : ExpressionManager) : ExpressionManager :=
  setValue (setValue em Aa (primaryOpen ls)) Oh (roundedOpen ls).

(** *** Blinking *)

(** [random1] is drawn when a blink starts, [random2] when it ends. *)
Definition blinkTick (delta random1 random2 : Q)
  (b : BlinkState) (em : ExpressionManager) : BlinkState * ExpressionManager :=
  let timer1 := timer b - delta in
  let b1 :=
    if JS.leb timer1 0 && negb (isBlinking b)
    then {| timer := 2 + random1 * 4; isBlinking := true |}
    else {| timer := timer1; isBlinking := isBlinking b |} in
  if isBlinking b1 then
    let blinkProgress := 1 - (timer b1 / 0.15) in
    if JS.leb 1 blinkProgress then
      ({| timer := 2 + random2 * 4; isBlinking := false |},
       setValue em Blink 0)
    else
      let blinkValue := Math_sin (blinkProgress * Math_PI) in
      (b1, setValue em Blink blinkValue)
  else (b1, em).

(** *** Emotion expressions *)

Definition emotionSpeed : Q := 3.

(** The test "emotion changed": store the new label and restart the blend. *)
Definition emotion_change (currentEmotion : EmotionTag) (e : EmotionState)
  : EmotionState :=
  if negb (EmotionTag_eqb (current e) currentEmotion)
  then {| current := currentEmotion; blendValue := 0 |}
  else e.

Definition emotion_advance (delta : Q) (e : EmotionState) : EmotionState :=
  {| current := current e;
     blendValue := JS.Math_min 1 (blendValue e + delta * emotionSpeed) |}.

Definition emotionTick (currentEmotion : EmotionTag) (delta : Q)
  (e : EmotionState) : EmotionState :=
  emotion_advance delta (emotion_change currentEmotion e).

Definition expressionsToReset : list VRMExpressionPresetName :=
  [Happy; Angry; Sad; Surprised; Relaxed].

Definition fade_one (delta : Q) (em : ExpressionManager)
  (expr : VRMExpressionPresetName) : ExpressionManager :=
  let currentValue := getValue em expr in
  if JS.ltb 0 currentValue
  then setValue em expr (JS.Math_max 0 (currentValue - delta * emotionSpeed))
  else em.

Definition fade_all (delta : Q) (em : ExpressionManager) : ExpressionManager :=
  fold_left (fade_one delta) expressionsToReset em.

Definition apply_emotion (currentEmotion : EmotionTag) (blend : Q)
  (em : ExpressionManager) : ExpressionManager :=
  match emotionToVRMExpression currentEmotion with
  | Some targetExpression => setValue em targetExpression (blend * 0.7)
  | None =>
      if EmotionTag_eqb currentEmotion embarrassed
         || EmotionTag_eqb currentEmotion shy
      then setValue em Happy (blend * 0.3)
      else em
  end.

Definition emotionFrame (currentEmotion : EmotionTag) (delta : Q)
  (e : EmotionState) (em : ExpressionManager) : EmotionState * ExpressionManager :=
  let e' := emotionTick currentEmotion delta e in
  (e', apply_emotion currentEmotion (blendValue e') (fade_all delta em)).

(** *** Poses *)

Definition speakingPoses : list nat := [1; 2; 4]%nat.
Definition idlePoses : list nat := [0; 0; 4; 4; 1]%nat.

(** [arr[Math.floor(Math.random() * arr.length)]] *)
Definition pick (arr : list nat) (random : Q) : nat :=
  nth (Z.to_nat (JS.Math_floor (random * inject_Z (Z.of_nat (List.length arr)))))
      arr 0%nat.

Definition choosePose (isSpeaking : bool) (currentEmotion : EmotionTag)
  (random : Q) : nat :=
  if isSpeaking then pick speakingPoses random
  else
    match currentEmotion with
    | shy | embarrassed => 3%nat
    | angry | annoyed | proud => 1%nat
    | excited | happy => 2%nat
    | _ => pick idlePoses random
    end.

(** "Don't pick same pose twice in a row". *)
Definition noRepeat (newPoseIndex currentPoseIndex : nat) : nat :=
  if Nat.eqb newPoseIndex currentPoseIndex
  then ((newPoseIndex + 1) mod List.length poses)%nat
  else newPoseIndex.

Definition poseChangeInterval (isSpeaking : bool) : Q :=
  if isSpeaking then 2.5 else 5.

(** Whether this frame takes a pose decision. *)
Definition decides (isSpeaking : bool) (delta : Q) (p : PoseAnim) : bool :=
  JS.ltb (poseChangeInterval isSpeaking) (poseTimer p + delta).

Definition poseDecide (isSpeaking : bool) (currentEmotion : EmotionTag)
  (delta random : Q) (p : PoseAnim) : PoseAnim :=
  let poseTimer1 := poseTimer p + delta in
  if JS.ltb (poseChangeInterval isSpeaking) poseTimer1 then
    let currentPoseIndex1 := targetPoseIndex p in
    let newPoseIndex :=
      noRepeat (choosePose isSpeaking currentEmotion random) currentPoseIndex1 in
    {| currentPoseIndex := currentPoseIndex1;
       targetPoseIndex := newPoseIndex;
       blendFactor := 0;
       poseTimer := 0;
       lastPoseChange := lastPoseChange p;
       currentPose := currentPose p |}
  else
    {| currentPoseIndex := currentPoseIndex p;
       targetPoseIndex := targetPoseIndex p;
       blendFactor := blendFactor p;
       poseTimer := poseTimer1;
       lastPoseChange := lastPoseChange p;
       currentPose := currentPose p |}.

Definition blendSpeed : Q := 1.5.

Definition poseBlend (delta : Q) (p : PoseAnim) : PoseAnim :=
  if JS.ltb (blendFactor p) 1 then
    let blendFactor1 := JS.Math_min 1 (blendFactor p + delta / blendSpeed) in
    let easedBlend := easeInOutCubic blendFactor1 in
    {| currentPoseIndex := currentPoseIndex p;
       targetPoseIndex := targetPoseIndex p;
       blendFactor := blendFactor1;
       poseTimer := poseTimer p;
       lastPoseChange := lastPoseChange p;
       currentPose := lerpPose (pose_at (currentPoseIndex p))
                               (pose_at (targetPoseIndex p)) easedBlend |}
  else p.

Definition poseTick (isSpeaking : bool) (currentEmotion : EmotionTag)
  (delta random : Q) (p : PoseAnim) : PoseAnim :=
  poseBlend delta (poseDecide isSpeaking currentEmotion delta random p).

(** *** The whole frame *)

(** The callback on a loaded model with an expression manager (without one
    it returns at once).  The breathing and head overlays and the writes to
    the bones read the pose state and change none of the refs below. *)

(** The props and the per-frame values the callback reads. *)
Record FrameInput := mkInput {
  isSpeaking : bool;
  audioLevel : Q;
  currentEmotion : EmotionTag;
  delta : Q;
  time : Q;
  rndLip : Q;
  rndBlinkStart : Q;
  rndBlinkEnd : Q;
  rndPose : Q
}.

Record Refs := mkRefs {
  lipSyncRef : LipSync;
  blinkRef : BlinkState;
  emotionRef : EmotionState;
  poseAnimRef : PoseAnim;
  expressionManager : ExpressionManager
}.

Definition refs0 : Refs := {|
  lipSyncRef := lipSync0; blinkRef := blink0; emotionRef := emotion0;
  poseAnimRef := poseAnim0; expressionManager := no_expression |}.

Definition useFrame (i : FrameInput) (r : Refs) : Refs :=
  let ls := lipSyncTick (isSpeaking i) (audioLevel i) (time i) (rndLip i)
                        (lipSyncRef r) in
  let em1 := applyMouth ls (expressionManager r) in
  let (b, em2) := blinkTick (delta i) (rndBlinkStart i) (rndBlinkEnd i)
                            (blinkRef r) em1 in
  let (e, em3) := emotionFrame (currentEmotion i) (delta i) (emotionRef r) em2 in
  let p := poseTick (isSpeaking i) (currentEmotion i) (delta i) (rndPose i)
                    (poseAnimRef r) in
  {| lipSyncRef := ls; blinkRef := b; emotionRef := e; poseAnimRef := p;
     expressionManager := em3 |}.

Definition frames (inputs : list FrameInput) (r : Refs) : Refs :=
  fold_left (fun r i => useFrame i r) inputs r.

End Frame.

(** [Math.random()] returns a number in [0,1). *)
Definition is_random (r : Q) : Prop := 0 <= r /\ r < 1.

End Avatar.

(** ** The Gemini service object (services/geminiService.ts) *)

Module GeminiService.

(** The private fields: whether [model] and [chatSession] are non-null, and
    the [isInitialized] flag. *)
Record Service := mkService {
  model : bool;
  chatSession : bool;
  isInitialized : bool
}.

Definition initial : Service :=
  {| model := false; chatSession := false; isInitialized := false |}.

(** What the SDK does during [initialize]: it succeeds, or throws before
    [this.model] is assigned, or throws in [startChat]. *)
Inductive SdkInit := InitOk | ModelThrows | ChatThrows.

(** The two kinds of exception a caller can see: the service's own
    "not initialized" error and an error of the SDK that reaches the
    caller. *)
Inductive Error := NotInitialized | Rethrown.

Definition initialize (o : SdkInit) (s : Service) : Service * option Error :=
  match o with
  | ModelThrows => (s, Some Rethrown)
  | ChatThrows =>
      ({| model := true; chatSession := chatSession s;
          isInitialized := isInitialized s |}, Some Rethrown)
  | InitOk =>
      ({| model := true; chatSession := true; isInitialized := true |}, None)
  end.

(** [reply] is the text the chat session answers with, [None] when the SDK
    call throws. *)
Definition sendMessage (s : Service) (reply : option string)
  : Error + Gemini.WaifuResponse :=
  if negb (isInitialized s) || negb (chatSession s) then inl NotInitialized
  else match reply with
       | Some response => inr (Gemini.parseEmotionFromResponse response)
       | None => inl Rethrown
       end.

Definition generateResponse (s : Service) (reply : option string)
  : Error + Gemini.WaifuResponse :=
  if negb (model s) then inl NotInitialized
  else match reply with
       | Some response => inr (Gemini.parseEmotionFromResponse response)
       | None => inl Rethrown
       end.

Definition isReady (s : Service) : bool := isInitialized s.

(** [resetChat]; [throws] tells whether [startChat] throws. *)
Definition resetChat (throws : bool) (s : Service) : Service * option Error :=
  if model s then
    if throws then (s, Some Rethrown)
    else ({| model := model s; chatSession := true;
             isInitialized := isInitialized s |}, None)
  else (s, None).

Inductive Op := OpInitialize (o : SdkInit) | OpResetChat (throws : bool).

Definition apply_op (s : Service) (op : Op) : Service :=
  match op with
  | OpInitialize o => fst (initialize o s)
  | OpResetChat t => fst (resetChat t s)
  end.

Definition run (ops : list Op) (s : Service) : Service :=
  fold_left apply_op ops s.

End GeminiService.

(** ** The emotion block over binary64 (components/Avatar.tsx) *)

(** The emotion block of the frame callback once more, with the numbers
    JavaScript computes with: binary64 floats and their rounded
    operations.  The other blocks of the callback write the Aa, Oh and
    Blink presets only, so the emotion presets are decided here. *)
Module Avatar64.

Import PrimFloat.
Local Open Scope float_scope.

(** [Math.min] and [Math.max] on two doubles: NaN if either is NaN, and
    [-0] counts as smaller than [+0]. *)
Definition Math_min (a b : float) : float :=
  if is_nan a || is_nan b then nan
  else if a <? b then a
  else if b <? a then b
  else if get_sign a then a else b.

Definition Math_max (a b : float) : float :=
  if is_nan a || is_nan b then nan
  else if a <? b then b
  else if b <? a then a
  else if get_sign a then b else a.

(** three-vrm's [saturate]: [Math.max(Math.min(value, 1.0), 0.0)]. *)
Definition saturate (value : float) : float :=
  Math_max (Math_min value 1) 0.

Definition ExpressionManager := Avatar.VRMExpressionPresetName -> float.

Definition getValue (em : ExpressionManager)
  (name : Avatar.VRMExpressionPresetName) : float :=
  em name.

Definition setValue (em : ExpressionManager)
  (name : Avatar.VRMExpressionPresetName) (weight : float) : ExpressionManager :=
  fun n => if Avatar.preset_eqb n name then saturate weight else em n.

Definition no_expression : ExpressionManager := fun _ => 0.

Record EmotionState := mkEmotion {
  current : Gemini.EmotionTag;
  blendValue : float
}.

Definition emotion0 : EmotionState :=
  {| current := Gemini.neutral; blendValue := 0 |}.

Definition emotionSpeed : float := 3.

Definition emotion_change (currentEmotion : Gemini.EmotionTag)
  (e : EmotionState) : EmotionState :=
  if negb (Gemini.EmotionTag_eqb (current e) currentEmotion)
  then {| current := currentEmotion; blendValue := 0 |}
  else e.

Definition emotion_advance (delta : float) (e : EmotionState) : EmotionState :=
  {| current := current e;
     blendValue := Math_min 1 (blendValue e + delta * emotionSpeed) |}.

Definition emotionTick (currentEmotion : Gemini.EmotionTag) (delta : float)
  (e : EmotionState) : EmotionState :=
  emotion_advance delta (emotion_change currentEmotion e).

(** [v || 0]: zero, minus zero and NaN are falsy. *)
Definition or_zero (v : float) : float :=
  if is_zero v || is_nan v then 0 else v.

Definition fade_one (delta : float) (em : ExpressionManager)
  (expr : Avatar.VRMExpressionPresetName) : ExpressionManager :=
  let currentValue := or_zero (getValue em expr) in
  if 0 <? currentValue
  then setValue em expr (Math_max 0 (currentValue - delta * emotionSpeed))
  else em.

Definition fade_all (delta : float) (em : ExpressionManager) : ExpressionManager :=
  fold_left (fade_one delta) Avatar.expressionsToReset em.

#[warnings="-inexact-float"]
Definition apply_emotion (currentEmotion : Gemini.EmotionTag) (blend : float)
  (em : ExpressionManager) : ExpressionManager :=
  match Avatar.emotionToVRMExpression currentEmotion with
  | Some targetExpression => setValue em targetExpression (blend * 0.7)
  | None =>
      if Gemini.EmotionTag_eqb currentEmotion Gemini.embarrassed
         || Gemini.EmotionTag_eqb currentEmotion Gemini.shy
      then setValue em Avatar.Happy (blend * 0.3)
      else em
  end.

(** The emotion block of one frame, on the emotion ref and the weights. *)
Definition emotionFrame (currentEmotion : Gemini.EmotionTag) (delta : float)
  (s : EmotionState * ExpressionManager) : EmotionState * ExpressionManager :=
  let e' := emotionTick currentEmotion delta (fst s) in
  (e', apply_emotion currentEmotion (blendValue e') (fade_all delta (snd s))).

(** [n] frames with the same label and frame time. *)
Fixpoint emotionFrames (n : nat) (currentEmotion : Gemini.EmotionTag)
  (delta : float) (s : EmotionState * ExpressionManager)
  : EmotionState * ExpressionManager :=
  match n with
  | O => s
  | S k => emotionFrame currentEmotion delta
             (emotionFrames k currentEmotion delta s)
  end.

End Avatar64.

(** ** Breathing and head overlays (components/Avatar.tsx) *)

Module AvatarBones.

Import Avatar.

Record BreathState := mkBreath { phase : Q }.

Definition breath0 : BreathState := {| phase := 0 |}.

(** [breath.phase += delta * 0.8] *)
Definition breathe (delta : Q) (b : BreathState) : BreathState :=
  {| phase := phase b + delta * 0.8 |}.

(** The rotation [applyBone] sets: the pose's rotation plus the overlay,
    each missing overlay axis counting as 0. *)
Definition applyBone (rotation : Rot) (ox oy oz : Q) : Rot :=
  {| x := x rotation + ox; y := y rotation + oy; z := z rotation + oz |}.

Section Bones.

Variable Math_sin : Q -> Q.

Definition breathAmount (b : BreathState) : Q := Math_sin (phase b) * 0.01.
Definition breathExpand (b : BreathState) : Q :=
  (Math_sin (phase b) + 1) * 0.5 * 0.008.

Definition speakHead (isSpeaking : bool) (time : Q) : Q * Q * Q :=
  if isSpeaking
  then (Math_sin (time * 2.5) * 0.03,
        Math_sin (time * 1.8) * 0.05,
        Math_sin (time * 2.2) * 0.025)
  else (0, 0, 0).

(** The rotations written to the bones of a model that has a humanoid with
    all fourteen bones, from the materialised pose. *)
Definition applyPose (isSpeaking : bool) (time : Q) (b : BreathState)
  (pose : PoseData) : PoseData :=
  let '(speakHeadX, speakHeadY, speakHeadZ) := speakHead isSpeaking time in
  {| spine := applyBone (spine pose) (breathAmount b) 0 0;
     chest := applyBone (chest pose) (breathExpand b * 1.5) 0 0;
     hips := applyBone (hips pose) 0 0 0;
     head := applyBone (head pose) speakHeadX speakHeadY speakHeadZ;
     leftShoulder := applyBone (leftShoulder pose) 0 0 0;
     rightShoulder := applyBone (rightShoulder pose) 0 0 0;
     leftUpperArm := applyBone (leftUpperArm pose) 0 0 0;
     rightUpperArm := applyBone (rightUpperArm pose) 0 0 0;
     leftLowerArm := applyBone (leftLowerArm pose) 0 0 0;
     rightLowerArm := applyBone (rightLowerArm pose) 0 0 0;
     leftHand := applyBone (leftHand pose) 0 0 0;
     rightHand := applyBone (rightHand pose) 0 0 0;
     leftUpperLeg := applyBone (leftUpperLeg pose) 0 0 0;
     rightUpperLeg := applyBone (rightUpperLeg pose) 0 0 0 |}.

(** The pose part of the frame callback: the breath phase advances, the
    pose state takes its step, and the bones are written from it. *)
Definition bonesFrame (i : FrameInput) (b : BreathState) (p : PoseAnim)
  : BreathState * PoseAnim * PoseData :=
  let b' := breathe (delta i) b in
  let p' := poseTick (isSpeaking i) (currentEmotion i) (delta i) (rndPose i) p in
  (b', p', applyPose (isSpeaking i) (time i) b' (currentPose p')).

End Bones.

End AvatarBones.

(** * Vocabulary of the statements *)

(** The loudness signal is within its range. *)
Definition level_ok (s : ElevenLabs.Service) : Prop :=
  0 <= ElevenLabs.currentAudioLevel s <= 1.

Definition published_ok (a : ElevenLabs.AudioState) : Prop :=
  0 <= ElevenLabs.st_audioLevel a <= 1.

(** Consecutive frames with [isSpeaking = false] and [audioLevel = 0]; each
    frame comes with its clock time and its random draw. *)
Definition atRest (Math_sin : Q -> Q) (frames : list (Q * Q))
  (ls : Avatar.LipSync) : Avatar.LipSync :=
  fold_left (fun l tr => Avatar.lipSyncTick Math_sin false 0 (fst tr) (snd tr) l)
            frames ls.

(** [0.85] to the power [n]. *)
Fixpoint pow085 (n : nat) : Q :=
  match n with
  | O => 1
  | S k => pow085 k * 0.85
  end.

(** The emotion state after a sequence of frames, each with the label and
    the frame time it supplies. *)
Definition emotionTicks (ticks : list (Gemini.EmotionTag * Q))
  (e : Avatar.EmotionState) : Avatar.EmotionState :=
  fold_left (fun e t => Avatar.emotionTick (fst t) (snd t) e) ticks e.

(** The pose indices selected, in order, by the decisions taken along a
    sequence of frames. *)
Fixpoint decisionsOf (inputs : list Avatar.FrameInput) (p : Avatar.PoseAnim)
  : list nat :=
  match inputs with
  | [] => []
  | i :: rest =>
      let p' := Avatar.poseTick (Avatar.isSpeaking i) (Avatar.currentEmotion i)
                                (Avatar.delta i) (Avatar.rndPose i) p in
      if Avatar.decides (Avatar.isSpeaking i) (Avatar.delta i) p
      then Avatar.targetPoseIndex p' :: decisionsOf rest p'
      else decisionsOf rest p'
  end.

(** No element of the list equals its successor. *)
Fixpoint no_consecutive_repeat (l : list nat) : Prop :=
  match l with
  | a :: (b :: _) as tl => a <> b /\ no_consecutive_repeat tl
  | _ => True
  end.

(** Consecutive blink updates; each frame carries its frame time and the
    two random draws it may consume. *)
Definition blinkFrames (Math_sin : Q -> Q) (Math_PI : Q)
  (frames : list (Q * Q * Q))
  (s : Avatar.BlinkState * Avatar.ExpressionManager)
  : Avatar.BlinkState * Avatar.ExpressionManager :=
  fold_left
    (fun s f =>
       Avatar.blinkTick Math_sin Math_PI (fst (fst f)) (snd (fst f)) (snd f)
                        (fst s) (snd s))
    frames s.

(** Every character of the string is a word character. *)
Fixpoint all_word (s : string) : bool :=
  match s with
  | String c s' => Gemini.is_word c && all_word s'
  | EmptyString => true
  end.

(** [q] to the power [n]. *)
Fixpoint powQ (q : Q) (n : nat) : Q :=
  match n with
  | O => 1
  | S k => powQ q k * q
  end.

(** The frame callback is only ever pending under a stored handle. *)
Definition handle_ok (s : ElevenLabs.Service) : Prop :=
  ElevenLabs.pending s = true -> ElevenLabs.animationFrameId s = true.

(** Whether the first, respectively the last, character is whitespace. *)
Definition first_is_space (s : string) : bool :=
  match s with
  | String c _ => Gemini.is_space c
  | EmptyString => false
  end.

Fixpoint last_is_space (s : string) : bool :=
  match s with
  | String c EmptyString => Gemini.is_space c
  | String _ s' => last_is_space s'
  | EmptyString => false
  end.

(** Every character of the string is whitespace. *)
Fixpoint all_space (s : string) : bool :=
  match s with
  | String c s' => Gemini.is_space c && all_space s'
  | EmptyString => true
  end.

(** The pose state is sound: both indices address the catalog, the blend
    factor is a proportion and the timer is within the longest interval. *)
Definition pose_ok (p : Avatar.PoseAnim) : Prop :=
  (Avatar.currentPoseIndex p < 5)%nat
  /\ (Avatar.targetPoseIndex p < 5)%nat
  /\ 0 <= Avatar.blendFactor p <= 1
  /\ 0 <= Avatar.poseTimer p <= 5.








(** While no blink is in progress the eyelid weight is 0. *)
Definition blink_rest (b : Avatar.BlinkState) (em : Avatar.ExpressionManager)
  : Prop :=
  Avatar.isBlinking b = false -> Avatar.getValue em Avatar.Blink == 0.

(** Whether the frame's last write for label [l] goes to preset [p]. *)
Definition targets (l : Gemini.EmotionTag) (p : Avatar.VRMExpressionPresetName)
  : bool :=
  match Avatar.emotionToVRMExpression l with
  | Some q => Avatar.preset_eqb p q
  | None =>
      (Gemini.EmotionTag_eqb l Gemini.embarrassed
       || Gemini.EmotionTag_eqb l Gemini.shy)
      && Avatar.preset_eqb p Avatar.Happy
  end.


(** Consecutive frames with [isSpeaking = true] and a fixed audio level;
    each frame comes with its clock time and its random draw. *)
Definition speaking (Math_sin : Q -> Q) (level : Q) (frames : list (Q * Q))
  (ls : Avatar.LipSync) : Avatar.LipSync :=
  fold_left
    (fun l tr => Avatar.lipSyncTick Math_sin true level (fst tr) (snd tr) l)
    frames ls.

(** The app's state callback hands a published state to the avatar as its
    [isSpeaking] and [audioLevel] props; this is the lip-sync step the
    avatar then takes. *)
Definition lipSyncOn (Math_sin : Q -> Q) (a : ElevenLabs.AudioState)
  (time random : Q) (ls : Avatar.LipSync) : Avatar.LipSync :=
  Avatar.lipSyncTick Math_sin (ElevenLabs.st_isPlaying a)
    (ElevenLabs.st_audioLevel a) time random ls.

(** A frame of at least 20 bins whose voice bins are all at most 30. *)
Definition silent (d : ElevenLabs.AudioFrame) : Prop :=
  (20 <= List.length d)%nat
  /\ forall i, (2 <= i < 20)%nat -> (nth i d 0 <= 30)%Z.

(** The same rotation, number by number. *)
Definition Rot_eq (a b : Avatar.Rot) : Prop :=
  Avatar.x a == Avatar.x b /\ Avatar.y a == Avatar.y b
  /\ Avatar.z a == Avatar.z b.

(** * Properties *)

(** ** Arithmetic of [Math.min], [Math.max] and the clamp *)

Lemma Math_min_cases (a b : Q) :
  (a <= b /\ JS.Math_min a b = a) \/ (b < a /\ JS.Math_min a b = b).
Proof.
  unfold JS.Math_min. destruct (Qle_bool a b) eqn:E.
  - left. split; [now apply Qle_bool_iff | reflexivity].
  - right. split; [| reflexivity].
    apply Qnot_le_lt. intro H. apply Qle_bool_iff in H. congruence.
Qed.

Lemma Math_max_cases (a b : Q) :
  (a <= b /\ JS.Math_max a b = b) \/ (b < a /\ JS.Math_max a b = a).
Proof.
  unfold JS.Math_max. destruct (Qle_bool a b) eqn:E.
  - left. split; [now apply Qle_bool_iff | reflexivity].
  - right. split; [| reflexivity].
    apply Qnot_le_lt. intro H. apply Qle_bool_iff in H. congruence.
Qed.

Lemma ltb_true (a b : Q) : JS.ltb a b = true <-> a < b.
Proof.
  unfold JS.ltb. rewrite negb_true_iff. split.
  - intro E. apply Qnot_le_lt. intro H. apply Qle_bool_iff in H. congruence.
  - intro H. destruct (Qle_bool b a) eqn:E; [| reflexivity].
    apply Qle_bool_iff in E. lra.
Qed.

Lemma ltb_false (a b : Q) : JS.ltb a b = false <-> b <= a.
Proof.
  unfold JS.ltb. rewrite negb_false_iff. apply Qle_bool_iff.
Qed.

Lemma leb_true (a b : Q) : JS.leb a b = true <-> a <= b.
Proof. apply Qle_bool_iff. Qed.

Lemma leb_false (a b : Q) : JS.leb a b = false <-> b < a.
Proof.
  unfold JS.leb. split.
  - intro E. apply Qnot_le_lt. intro H. apply Qle_bool_iff in H. congruence.
  - intro H. destruct (Qle_bool a b) eqn:E; [| reflexivity].
    apply Qle_bool_iff in E. lra.
Qed.

(** Case analysis on every [Math.min] and [Math.max] in sight. *)
Ltac minmax :=
  repeat match goal with
  | |- context [JS.Math_min ?a ?b] =>
      let H := fresh in let E := fresh in
      destruct (Math_min_cases a b) as [[H E] | [H E]]; rewrite E in *; clear E
  | |- context [JS.Math_max ?a ?b] =>
      let H := fresh in let E := fresh in
      destruct (Math_max_cases a b) as [[H E] | [H E]]; rewrite E in *; clear E
  | _ : context [JS.Math_min ?a ?b] |- _ =>
      let H := fresh in let E := fresh in
      destruct (Math_min_cases a b) as [[H E] | [H E]]; rewrite E in *; clear E
  | _ : context [JS.Math_max ?a ?b] |- _ =>
      let H := fresh in let E := fresh in
      destruct (Math_max_cases a b) as [[H E] | [H E]]; rewrite E in *; clear E
  end.

Lemma clamp01_range (v : Q) : 0 <= JS.clamp01 v <= 1.
Proof. unfold JS.clamp01. minmax; lra. Qed.

Lemma clamp01_id (v : Q) : 0 <= v <= 1 -> JS.clamp01 v == v.
Proof. intros [H0 H1]. unfold JS.clamp01. minmax; lra. Qed.

Lemma min_max_clamp (v : Q) :
  JS.Math_min 1 (JS.Math_max 0 v) == JS.clamp01 v.
Proof. unfold JS.clamp01. minmax; lra. Qed.

(** ** Audio level extraction *)

Lemma fold_add_shift (f : nat -> Z) (l : list nat) (a : Z) :
  fold_left (fun sum i => (sum + f i)%Z) l a
  = (a + fold_left (fun sum i => (sum + f i)%Z) l 0)%Z.
Proof.
  revert a. induction l as [| i l IH]; intro a; simpl.
  - lia.
  - rewrite IH. rewrite (IH (f i)). lia.
Qed.

(** The loop adds up the [hi - lo] entries that follow the first [lo]. *)
Lemma sum_bins_firstn_skipn (d : ElevenLabs.AudioFrame) (lo hi : nat) :
  (hi <= List.length d)%nat ->
  ElevenLabs.sum_bins d lo hi
  = fold_right Z.add 0%Z (firstn (hi - lo) (skipn lo d)).
Proof.
  unfold ElevenLabs.sum_bins. intro Hhi.
  remember (hi - lo)%nat as n eqn:En.
  revert lo d Hhi En. induction n as [| n IH]; intros lo d Hhi En.
  - reflexivity.
  - simpl seq. simpl fold_left. rewrite fold_add_shift.
    assert (Hlo : (lo < List.length d)%nat) by lia.
    destruct (skipn lo d) as [| v tl] eqn:Es.
    + apply (f_equal (@List.length Z)) in Es.
      rewrite length_skipn in Es. simpl in Es. lia.
    + assert (Hv : nth lo d 0%Z = v).
      { rewrite <- (firstn_skipn lo d) at 1.
        rewrite app_nth2; rewrite length_firstn.
        - replace (lo - Nat.min lo (List.length d))%nat with 0%nat by lia.
          rewrite Es. reflexivity.
        - lia. }
      assert (Htl : skipn (S lo) d = tl).
      { replace (S lo) with (1 + lo)%nat by lia.
        rewrite <- skipn_skipn. rewrite Es. reflexivity. }
      simpl firstn. simpl fold_right. rewrite Hv.
      rewrite (IH (S lo) d Hhi) by lia. rewrite Htl. reflexivity.
Qed.

Lemma normalized_range (d : ElevenLabs.AudioFrame) :
  0 <= ElevenLabs.normalized d <= 1.
Proof. unfold ElevenLabs.normalized. minmax; lra. Qed.

Lemma analyze_ok (s : ElevenLabs.Service) (d : ElevenLabs.AudioFrame) :
  level_ok s ->
  level_ok (fst (ElevenLabs.analyze s d))
  /\ published_ok (snd (ElevenLabs.analyze s d)).
Proof.
  unfold level_ok, published_ok, ElevenLabs.analyze. intros Hs.
  destruct (negb (ElevenLabs.analyser s) || negb (ElevenLabs.isPlaying s));
    simpl.
  - lra.
  - pose proof (normalized_range d). lra.
Qed.

Lemma stopAudioAnalysis_ok (s : ElevenLabs.Service) :
  level_ok (fst (ElevenLabs.stopAudioAnalysis s))
  /\ published_ok (snd (ElevenLabs.stopAudioAnalysis s)).
Proof. unfold level_ok, published_ok. simpl. lra. Qed.

Lemma step_ok (s : ElevenLabs.Service) (e : ElevenLabs.Event) :
  level_ok s ->
  level_ok (fst (ElevenLabs.step s e))
  /\ match snd (ElevenLabs.step s e) with
     | Some a => published_ok a
     | None => True
     end.
Proof.
  intro Hs. destruct e as [| d | d | | |]; simpl.
  - split; [exact Hs | exact I].
  - unfold ElevenLabs.onplay, ElevenLabs.startAudioAnalysis.
    destruct (ElevenLabs.analyze _ d) as [s' a] eqn:E.
    pose proof (analyze_ok
      (ElevenLabs.cancel_if_set (ElevenLabs.set_isPlaying true s)) d Hs) as H.
    rewrite E in H. exact H.
  - destruct (ElevenLabs.pending s).
    + unfold ElevenLabs.frame.
      destruct (ElevenLabs.analyze _ d) as [s' a] eqn:E.
      match type of E with ElevenLabs.analyze ?s0 _ = _ =>
        pose proof (analyze_ok s0 d Hs) as H end.
      rewrite E in H. exact H.
    + split; [exact Hs | exact I].
  - unfold level_ok, published_ok. simpl. lra.
  - unfold level_ok, published_ok. simpl. lra.
  - split; exact Hs.
Qed.

Lemma run_ok (es : list ElevenLabs.Event) (s : ElevenLabs.Service) :
  level_ok s ->
  level_ok (fst (ElevenLabs.run s es))
  /\ Forall published_ok (snd (ElevenLabs.run s es)).
Proof.
  revert s. induction es as [| e es IH]; intros s Hs; simpl.
  - split; [exact Hs | constructor].
  - destruct (ElevenLabs.step s e) as [s1 o] eqn:E1.
    pose proof (step_ok s e Hs) as [H1 Ho]. rewrite E1 in H1, Ho.
    simpl in H1, Ho.
    destruct (ElevenLabs.run s1 es) as [s2 outs] eqn:E2.
    pose proof (IH s1 H1) as [H2 Houts]. rewrite E2 in H2, Houts.
    simpl in *. split; [exact H2 |].
    destruct o; [constructor; assumption | assumption].
Qed.

(** C3 (as stated, refuted): on a frame whose bins 0 to 19 hold 100 and
    whose bins 20 to 127 hold 0, the level the running analysis publishes
    is not the one obtained from the mean of bins 2 through 20: the loop
    stops before bin 20 and divides by 18. *)
Lemma C3_bin_20_is_not_averaged :
  let d := (repeat 100 20 ++ repeat 0 108)%Z in
  let s := {| ElevenLabs.analyser := true; ElevenLabs.isPlaying := true;
              ElevenLabs.animationFrameId := true;
              ElevenLabs.currentAudioLevel := 0;
              ElevenLabs.pending := true |} in
  ElevenLabs.average d == 100
  /\ ElevenLabs.spec_mean_2_to_20 d == 1800 / 19
  /\ ~ (ElevenLabs.normalized d == ElevenLabs.spec_raw_level d)
  /\ ~ (ElevenLabs.st_audioLevel (snd (ElevenLabs.analyze s d))
        == 0 * 0.3 + ElevenLabs.spec_raw_level d * 0.7).
Proof.
  cbv zeta. repeat split; try (vm_compute; reflexivity);
    intro H; vm_compute in H; discriminate H.
Qed.

(** C3 (amended): while the analysis runs on a frame of at least 20 bins,
    the raw level is [clamp((m - 30) / 150, 0, 1)] for [m] the arithmetic
    mean of the 18 bins at indices 2 through 19, and the published level is
    [level * 0.3 + raw * 0.7]. *)
Theorem C3_level_from_bins_2_to_19
  (s : ElevenLabs.Service) (d : ElevenLabs.AudioFrame) :
  ElevenLabs.analyser s = true ->
  ElevenLabs.isPlaying s = true ->
  (20 <= List.length d)%nat ->
  let m := inject_Z (fold_right Z.add 0%Z (firstn 18 (skipn 2 d))) / 18 in
  let raw := JS.clamp01 ((m - 30) / 150) in
  ElevenLabs.normalized d == raw
  /\ ElevenLabs.currentAudioLevel (fst (ElevenLabs.analyze s d))
     == ElevenLabs.currentAudioLevel s * 0.3 + raw * 0.7
  /\ ElevenLabs.st_audioLevel (snd (ElevenLabs.analyze s d))
     == ElevenLabs.currentAudioLevel s * 0.3 + raw * 0.7.
Proof.
  intros Ha Hp Hlen m raw.
  assert (Havg : ElevenLabs.average d = m).
  { unfold ElevenLabs.average, ElevenLabs.voiceRangeEnd, ElevenLabs.voiceRangeStart.
    replace (Nat.min 20 (List.length d)) with 20%nat by lia.
    rewrite sum_bins_firstn_skipn by lia. reflexivity. }
  assert (Hn : ElevenLabs.normalized d == raw).
  { unfold ElevenLabs.normalized. rewrite Havg. apply min_max_clamp. }
  unfold ElevenLabs.analyze. rewrite Ha, Hp. simpl.
  repeat split; [exact Hn | rewrite Hn; reflexivity | rewrite Hn; reflexivity].
Qed.

Lemma C3_level_from_bins_2_to_19_witness :
  ElevenLabs.st_audioLevel
    (snd (ElevenLabs.analyze
            (ElevenLabs.mkService true true true (1 # 2) true)
            (repeat 180%Z 128)))
  == (1 # 2) * 0.3 + 1 * 0.7.
Proof.
  pose proof (C3_level_from_bins_2_to_19
                (ElevenLabs.mkService true true true (1 # 2) true)
                (repeat 180%Z 128) eq_refl eq_refl) as H.
  rewrite repeat_length in H.
  destruct (H ltac:(lia)) as [_ [_ H3]].
  rewrite H3. vm_compute. reflexivity.
Defined.

(** ** Lip sync *)

Lemma mouthOpenValue_range (ls : Avatar.LipSync) :
  0 <= Avatar.mouthOpenValue ls <= 1.
Proof. unfold Avatar.mouthOpenValue. minmax; lra. Qed.

Lemma visemes_range (ls : Avatar.LipSync) :
  (0 <= Avatar.primaryOpen ls <= 1) /\ (0 <= Avatar.roundedOpen ls <= 1).
Proof.
  unfold Avatar.primaryOpen, Avatar.roundedOpen.
  pose proof (mouthOpenValue_range ls). lra.
Qed.

Lemma useFrame_lipSyncRef Math_sin Math_PI (i : Avatar.FrameInput) (r : Avatar.Refs) :
  Avatar.lipSyncRef (Avatar.useFrame Math_sin Math_PI i r)
  = Avatar.lipSyncTick Math_sin (Avatar.isSpeaking i) (Avatar.audioLevel i)
      (Avatar.time i) (Avatar.rndLip i) (Avatar.lipSyncRef r).
Proof.
  unfold Avatar.useFrame.
  destruct (Avatar.blinkTick _ _ _ _ _ _ _) as [b em2].
  destruct (Avatar.emotionFrame _ _ _ _) as [e em3]. reflexivity.
Qed.

(** The emotion block leaves the mouth and blink presets alone. *)
Lemma fade_one_other (delta : Q) (em : Avatar.ExpressionManager)
  (expr n : Avatar.VRMExpressionPresetName) :
  Avatar.preset_eqb n expr = false ->
  Avatar.fade_one delta em expr n = em n.
Proof.
  intro H. unfold Avatar.fade_one, Avatar.setValue.
  destruct (JS.ltb 0 (Avatar.getValue em expr)); [rewrite H |]; reflexivity.
Qed.

Lemma emotionFrame_mouth (label : Gemini.EmotionTag) (delta : Q)
  (e : Avatar.EmotionState) (em : Avatar.ExpressionManager) :
  snd (Avatar.emotionFrame label delta e em) Avatar.Aa = em Avatar.Aa
  /\ snd (Avatar.emotionFrame label delta e em) Avatar.Oh = em Avatar.Oh
  /\ snd (Avatar.emotionFrame label delta e em) Avatar.Blink = em Avatar.Blink.
Proof.
  unfold Avatar.emotionFrame, Avatar.apply_emotion, Avatar.fade_all. simpl.
  repeat split; destruct label; simpl; unfold Avatar.setValue; simpl;
    repeat (rewrite fade_one_other by reflexivity); reflexivity.
Qed.

Lemma blinkTick_mouth Math_sin Math_PI (delta r1 r2 : Q)
  (b : Avatar.BlinkState) (em : Avatar.ExpressionManager) :
  snd (Avatar.blinkTick Math_sin Math_PI delta r1 r2 b em) Avatar.Aa = em Avatar.Aa
  /\ snd (Avatar.blinkTick Math_sin Math_PI delta r1 r2 b em) Avatar.Oh = em Avatar.Oh.
Proof.
  unfold Avatar.blinkTick.
  destruct (JS.leb (Avatar.timer b - delta) 0 && negb (Avatar.isBlinking b));
    simpl.
  - destruct (JS.leb 1 _); simpl; split; reflexivity.
  - destruct (Avatar.isBlinking b); simpl; [| split; reflexivity].
    destruct (JS.leb 1 _); simpl; split; reflexivity.
Qed.

Lemma useFrame_mouth Math_sin Math_PI (i : Avatar.FrameInput) (r : Avatar.Refs) :
  let r' := Avatar.useFrame Math_sin Math_PI i r in
  Avatar.getValue (Avatar.expressionManager r') Avatar.Aa
    = JS.clamp01 (Avatar.primaryOpen (Avatar.lipSyncRef r'))
  /\ Avatar.getValue (Avatar.expressionManager r') Avatar.Oh
    = JS.clamp01 (Avatar.roundedOpen (Avatar.lipSyncRef r')).
Proof.
  intro r'. subst r'. rewrite useFrame_lipSyncRef.
  unfold Avatar.useFrame, Avatar.getValue.
  set (ls := Avatar.lipSyncTick _ _ _ _ _ _).
  set (em1 := Avatar.applyMouth ls _).
  pose proof (blinkTick_mouth Math_sin Math_PI (Avatar.delta i)
                (Avatar.rndBlinkStart i) (Avatar.rndBlinkEnd i)
                (Avatar.blinkRef r) em1) as [Ha Ho].
  destruct (Avatar.blinkTick _ _ _ _ _ _ _) as [b em2]. simpl in Ha, Ho.
  pose proof (emotionFrame_mouth (Avatar.currentEmotion i) (Avatar.delta i)
                (Avatar.emotionRef r) em2) as [Ha' [Ho' _]].
  destruct (Avatar.emotionFrame _ _ _ _) as [e em3]. simpl in *.
  rewrite Ha', Ho', Ha, Ho. split; reflexivity.
Qed.

(** C9: along every run of the audio service from its initial state the
    loudness level, and every level it publishes, lies in [0,1]; the level
    is 0 after an analysis step without a playing source and after the
    analysis is stopped; and after
    every frame of the avatar, from any state and on any input, the weights
    emitted for the two mouth shapes lie in [0,1] and are the weights the
    expression manager then holds. *)
Theorem C9_loudness_and_visemes_in_unit_interval :
  (forall es : list ElevenLabs.Event,
     0 <= ElevenLabs.currentAudioLevel (fst (ElevenLabs.run ElevenLabs.initial es)) <= 1
     /\ Forall (fun a => 0 <= ElevenLabs.st_audioLevel a <= 1)
               (snd (ElevenLabs.run ElevenLabs.initial es)))
  /\ (forall (s : ElevenLabs.Service) (d : ElevenLabs.AudioFrame),
        ElevenLabs.currentAudioLevel
          (fst (ElevenLabs.analyze (ElevenLabs.set_isPlaying false s) d)) = 0
        /\ ElevenLabs.currentAudioLevel (fst (ElevenLabs.stopAudioAnalysis s)) = 0)
  /\ (forall Math_sin Math_PI (i : Avatar.FrameInput) (r : Avatar.Refs),
        let r' := Avatar.useFrame Math_sin Math_PI i r in
        0 <= Avatar.primaryOpen (Avatar.lipSyncRef r') <= 1
        /\ 0 <= Avatar.roundedOpen (Avatar.lipSyncRef r') <= 1
        /\ Avatar.getValue (Avatar.expressionManager r') Avatar.Aa
           == Avatar.primaryOpen (Avatar.lipSyncRef r')
        /\ Avatar.getValue (Avatar.expressionManager r') Avatar.Oh
           == Avatar.roundedOpen (Avatar.lipSyncRef r')).
Proof.
  split; [| split].
  - intro es. apply (run_ok es ElevenLabs.initial).
    unfold level_ok. simpl. lra.
  - intros s d. split; [| reflexivity].
    unfold ElevenLabs.analyze. simpl.
    rewrite orb_true_r. reflexivity.
  - intros Math_sin Math_PI i r r'.
    pose proof (visemes_range (Avatar.lipSyncRef r')) as [Hp Hr].
    pose proof (useFrame_mouth Math_sin Math_PI i r) as [Ha Ho].
    fold r' in Ha, Ho.
    repeat split; try tauto.
    + rewrite Ha. apply clamp01_id. exact Hp.
    + rewrite Ho. apply clamp01_id. exact Hr.
Qed.

(** C10: while speaking, a frame whose audio level is strictly positive
    takes the real-audio path (the level smoothed as [s * 0.4 + a * 0.6],
    plus [sin(t * 15) * 0.1], clamped); a frame whose audio level is zero or
    less takes the simulated path (0.3 plus sines at 12, 18 and 25 rad/s
    plus a tenth of a random draw, clamped) and leaves the smoothed level
    untouched. *)
Theorem C10_real_path_only_for_positive_level
  Math_sin (audioLevel time random : Q) (ls : Avatar.LipSync) :
  let ls' := Avatar.lipSyncTick Math_sin true audioLevel time random ls in
  (0 < audioLevel ->
     Avatar.smoothedLevel ls'
       = Avatar.smoothedLevel ls * 0.4 + audioLevel * 0.6
     /\ Avatar.value ls'
        == JS.clamp01 (Avatar.smoothedLevel ls * 0.4 + audioLevel * 0.6
                       + Math_sin (time * 15) * 0.1))
  /\ (audioLevel <= 0 ->
     Avatar.smoothedLevel ls' = Avatar.smoothedLevel ls
     /\ Avatar.value ls'
        == JS.clamp01 (0.3 + Math_sin (time * 12) * 0.3
                       + Math_sin (time * 18) * 0.2
                       + Math_sin (time * 25) * 0.15 + random * 0.1)).
Proof.
  intro ls'. subst ls'. unfold Avatar.lipSyncTick. split; intro H.
  - apply ltb_true in H. rewrite H. simpl. split; reflexivity.
  - apply ltb_false in H. rewrite H. simpl. split; reflexivity.
Qed.

Lemma C10_real_path_only_for_positive_level_witness :
  Avatar.value
    (Avatar.lipSyncTick (fun _ => 0) true (1 # 2) 0 0 Avatar.lipSync0) == 0.3
  /\ Avatar.value
       (Avatar.lipSyncTick (fun _ => 0) true 0 0 (1 # 2) Avatar.lipSync0) == 0.35.
Proof.
  split.
  - destruct (C10_real_path_only_for_positive_level
                (fun _ => 0) (1 # 2) 0 0 Avatar.lipSync0) as [H _].
    destruct (H ltac:(reflexivity)) as [_ Hv].
    rewrite Hv. vm_compute. reflexivity.
  - destruct (C10_real_path_only_for_positive_level
                (fun _ => 0) 0 0 (1 # 2) Avatar.lipSync0) as [_ H].
    destruct (H ltac:(discriminate)) as [_ Hv].
    rewrite Hv. vm_compute. reflexivity.
Defined.

Lemma atRest_value Math_sin (frames : list (Q * Q)) (ls : Avatar.LipSync) :
  Avatar.value (atRest Math_sin frames ls)
  == Avatar.value ls * pow085 (List.length frames).
Proof.
  unfold atRest. revert ls. induction frames as [| f frames IH]; intro ls; simpl.
  - lra.
  - rewrite IH. unfold Avatar.lipSyncTick, Avatar.lipSync_close. simpl. lra.
Qed.

Lemma pow085_pos (n : nat) : 0 < pow085 n.
Proof. induction n as [| n IH]; simpl; lra. Qed.

Lemma pow085_antitone (n k : nat) : pow085 (n + k) <= pow085 n.
Proof.
  induction k as [| k IH].
  - rewrite Nat.add_0_r. lra.
  - rewrite Nat.add_succ_r. simpl. pose proof (pow085_pos (n + k)). lra.
Qed.

(** C2 (as stated, refuted): from a fully open mouth, five frames at rest
    leave [primaryOpen] at about 0.4, not below 0.01; even 27 frames do not
    suffice. *)
Lemma C2_five_ticks_do_not_close_the_mouth :
  let open := {| Avatar.value := 1; Avatar.smoothedLevel := 0 |} in
  ~ (Avatar.primaryOpen (atRest (fun _ => 0) (repeat (0, 0) 5) open) < 0.01)
  /\ 0.39 < Avatar.primaryOpen (atRest (fun _ => 0) (repeat (0, 0) 5) open)
  /\ ~ (Avatar.primaryOpen (atRest (fun _ => 0) (repeat (0, 0) 27) open) < 0.01).
Proof.
  cbv zeta. repeat split; try (vm_compute; reflexivity);
    intro H; vm_compute in H; discriminate H.
Qed.

(** C2 (amended): for every starting mouth-open value in [0,1], at least 28
    consecutive frames with [isSpeaking = false] and [audioLevel = 0] drive
    [primaryOpen] below 0.01; each such frame multiplies the previous open
    value by 0.85, and [primaryOpen] is the clamped open value times 0.9. *)
Theorem C2_mouth_closes_after_28_ticks
  Math_sin (frames : list (Q * Q)) (ls : Avatar.LipSync) :
  0 <= Avatar.value ls <= 1 ->
  (28 <= List.length frames)%nat ->
  Avatar.primaryOpen (atRest Math_sin frames ls) < 0.01
  /\ (forall time random,
        Avatar.value (Avatar.lipSyncTick Math_sin false 0 time random ls)
        = Avatar.value ls * 0.85)
  /\ Avatar.primaryOpen ls == Avatar.value ls * 0.9.
Proof.
  intros [H0 H1] Hlen. repeat split.
  - unfold Avatar.primaryOpen, Avatar.mouthOpenValue.
    pose proof (atRest_value Math_sin frames ls) as Hv.
    replace (List.length frames) with (28 + (List.length frames - 28))%nat
      in Hv by lia.
    pose proof (pow085_antitone 28 (List.length frames - 28)) as Ha.
    pose proof (pow085_pos (28 + (List.length frames - 28))) as Hp.
    assert (H28 : pow085 28 * 0.9 < 0.01) by (vm_compute; reflexivity).
    set (c := pow085 (28 + (List.length frames - 28))) in *.
    set (c28 := pow085 28) in *.
    assert (Hle : Avatar.value ls * c <= c) by nra.
    assert (Hge : 0 <= Avatar.value ls * c) by nra.
    minmax; lra.
  - unfold Avatar.primaryOpen, Avatar.mouthOpenValue. minmax; lra.
Qed.

Lemma C2_mouth_closes_after_28_ticks_witness :
  Avatar.primaryOpen
    (atRest (fun _ => 0) (repeat (0, 0) 28) (Avatar.mkLipSync 1 0)) < 0.01.
Proof.
  apply (C2_mouth_closes_after_28_ticks
           (fun _ => 0) (repeat (0, 0) 28) (Avatar.mkLipSync 1 0)).
  - simpl. lra.
  - rewrite repeat_length. lia.
Defined.

(** ** Emotion blending *)

Lemma EmotionTag_eqb_eq (a b : Gemini.EmotionTag) :
  Gemini.EmotionTag_eqb a b = true <-> a = b.
Proof. destruct a, b; simpl; split; intro H; congruence. Qed.

Lemma emotion_change_same (label : Gemini.EmotionTag) (e : Avatar.EmotionState) :
  label = Avatar.current e -> Avatar.emotion_change label e = e.
Proof.
  intro H. unfold Avatar.emotion_change.
  replace (Gemini.EmotionTag_eqb (Avatar.current e) label) with true.
  - reflexivity.
  - symmetry. apply EmotionTag_eqb_eq. congruence.
Qed.

Lemma emotion_change_other (label : Gemini.EmotionTag) (e : Avatar.EmotionState) :
  label <> Avatar.current e ->
  Avatar.emotion_change label e
  = {| Avatar.current := label; Avatar.blendValue := 0 |}.
Proof.
  intro H. unfold Avatar.emotion_change.
  destruct (Gemini.EmotionTag_eqb (Avatar.current e) label) eqn:E.
  - apply EmotionTag_eqb_eq in E. congruence.
  - reflexivity.
Qed.

Lemma emotionTick_le_1 (label : Gemini.EmotionTag) (delta : Q)
  (e : Avatar.EmotionState) :
  Avatar.blendValue (Avatar.emotionTick label delta e) <= 1.
Proof.
  unfold Avatar.emotionTick, Avatar.emotion_advance. simpl. minmax; lra.
Qed.

Lemma emotionTicks_le_1 (ticks : list (Gemini.EmotionTag * Q))
  (e : Avatar.EmotionState) :
  Avatar.blendValue e <= 1 ->
  Avatar.blendValue (emotionTicks ticks e) <= 1.
Proof.
  unfold emotionTicks. revert e.
  induction ticks as [| t ticks IH]; intros e He; simpl.
  - exact He.
  - apply IH. apply emotionTick_le_1.
Qed.

(** C7: after any sequence of frames from the initial state, a frame with
    frame time [dt >= 0] whose label is the stored one leaves the label
    change untaken and the blend value no smaller, at
    [min(1, blend + dt * 3)]; a frame whose label differs resets the blend
    value to 0 before advancing it, ending at [min(1, 0 + dt * 3)]. *)
Theorem C7_blend_monotone_and_reset_on_change
  (ticks : list (Gemini.EmotionTag * Q)) (label : Gemini.EmotionTag) (dt : Q) :
  0 <= dt ->
  let e := emotionTicks ticks Avatar.emotion0 in
  let e' := Avatar.emotionTick label dt e in
  (label = Avatar.current e ->
     Avatar.emotion_change label e = e
     /\ Avatar.blendValue e <= Avatar.blendValue e'
     /\ Avatar.blendValue e'
        = JS.Math_min 1 (Avatar.blendValue e + dt * 3))
  /\ (label <> Avatar.current e ->
     Avatar.blendValue (Avatar.emotion_change label e) = 0
     /\ Avatar.blendValue e' = JS.Math_min 1 (0 + dt * 3))
  /\ Avatar.current e' = label.
Proof.
  intros Hdt e e'.
  assert (He : Avatar.blendValue e <= 1).
  { apply emotionTicks_le_1. simpl. lra. }
  subst e'. unfold Avatar.emotionTick. repeat split.
  - apply emotion_change_same. assumption.
  - rewrite emotion_change_same by assumption.
    unfold Avatar.emotion_advance, Avatar.emotionSpeed. simpl. minmax; lra.
  - rewrite emotion_change_same by assumption. reflexivity.
  - rewrite emotion_change_other by assumption. reflexivity.
  - rewrite emotion_change_other by assumption. reflexivity.
  - unfold Avatar.emotion_advance, Avatar.emotion_change. simpl.
    destruct (Gemini.EmotionTag_eqb (Avatar.current e) label) eqn:E; simpl.
    + apply EmotionTag_eqb_eq in E. exact E.
    + reflexivity.
Qed.

Lemma C7_blend_monotone_and_reset_on_change_witness :
  Avatar.blendValue
    (Avatar.emotionTick Gemini.angry (1 # 10)
       (emotionTicks [(Gemini.angry, 1 # 10)] Avatar.emotion0))
  = JS.Math_min 1
      (Avatar.blendValue (emotionTicks [(Gemini.angry, 1 # 10)] Avatar.emotion0)
       + (1 # 10) * 3).
Proof.
  destruct (C7_blend_monotone_and_reset_on_change
              [(Gemini.angry, 1 # 10)] Gemini.angry (1 # 10))
    as [H _].
  - discriminate.
  - destruct (H eq_refl) as [_ [_ Hv]]. exact Hv.
Defined.


Section EmotionBinary64.

Import PrimFloat.
Local Open Scope float_scope.

(** The emotion state after [n] frames is [n] steps of the emotion ref. *)
Lemma emotionFrames64_state (n : nat) (l : Gemini.EmotionTag)
  (d : float) (s : Avatar64.EmotionState * Avatar64.ExpressionManager) :
  fst (Avatar64.emotionFrames n l d s)
  = Nat.iter n (Avatar64.emotionTick l d) (fst s).
Proof.
  induction n as [| n IH]; [reflexivity |].
  cbn [Avatar64.emotionFrames Nat.iter]. unfold Avatar64.emotionFrame.
  cbn [fst]. rewrite IH. reflexivity.
Qed.

(** With the label [angry], every frame ends by writing the Angry preset. *)
#[warnings="-inexact-float"]
Lemma emotionFrames64_angry (n : nat) (d : float)
  (s : Avatar64.EmotionState * Avatar64.ExpressionManager) :
  Avatar64.getValue (snd (Avatar64.emotionFrames (S n) Gemini.angry d s))
                    Avatar.Angry
  = Avatar64.saturate
      (Avatar64.blendValue
         (fst (Avatar64.emotionFrames (S n) Gemini.angry d s)) * 0.7).
Proof. reflexivity. Qed.

Lemma iter_shift {A : Type} (f : A -> A) (n : nat) (a : A) :
  Nat.iter (S n) f a = Nat.iter n f (f a).
Proof. apply Nat.iter_succ_r. Qed.

(** The first frame after the change, at 1/60 s: the blend restarts. *)
Lemma first_angry_tick (e : Avatar64.EmotionState) :
  Avatar64.current e = Gemini.neutral ->
  Avatar64.emotionTick Gemini.angry (1 / 60) e
  = Avatar64.emotionTick Gemini.angry (1 / 60) Avatar64.emotion0.
Proof.
  intro H. unfold Avatar64.emotionTick, Avatar64.emotion_change.
  rewrite H. reflexivity.
Qed.

(** Once at 1 the blend value stays at 1. *)
Lemma angry_blend_stays (m : nat) :
  Nat.iter m (Avatar64.emotionTick Gemini.angry (1 / 60))
    (Avatar64.mkEmotion Gemini.angry 1)
  = Avatar64.mkEmotion Gemini.angry 1.
Proof.
  induction m as [| m IH]; [reflexivity |].
  rewrite Nat.iter_succ, IH. vm_compute. reflexivity.
Qed.

(** C8: in binary64, from any state whose stored label is [neutral] and any
    weights, frames that supply the label [angry] with the frame time
    [1/60] leave the Angry weight below 0.7 after each of the first 19
    frames, at exactly 0.7 (blend value exactly 1) after the 20th frame,
    t = 1/3 s, and at exactly 0.7 after every later frame. *)
#[warnings="-inexact-float"]
Theorem C8_angry_weight_is_0_7_from_frame_20_on
  (e : Avatar64.EmotionState) (em : Avatar64.ExpressionManager) (n : nat) :
  Avatar64.current e = Gemini.neutral ->
  let r := Avatar64.emotionFrames n Gemini.angry (1 / 60) (e, em) in
  ((1 <= n < 20)%nat ->
     (Avatar64.getValue (snd r) Avatar.Angry <? 0.7) = true)
  /\ ((20 <= n)%nat ->
     Avatar64.getValue (snd r) Avatar.Angry = 0.7
     /\ Avatar64.blendValue (fst r) = 1).
Proof.
  intros Hc r. subst r.
  assert (Hstate : forall k,
            fst (Avatar64.emotionFrames (S k) Gemini.angry (1 / 60)
                   (e, em))
            = Nat.iter (S k)
                (Avatar64.emotionTick Gemini.angry (1 / 60))
                Avatar64.emotion0).
  { intro k. rewrite emotionFrames64_state. cbn [fst].
    rewrite !iter_shift. rewrite (first_angry_tick e Hc). reflexivity. }
  split.
  - intros [H1 H20]. destruct n as [| k]; [lia |].
    rewrite emotionFrames64_angry, Hstate.
    do 19 (destruct k as [| k]; [vm_compute; reflexivity |]). lia.
  - intro H20. destruct n as [| k]; [lia |].
    assert (Hb : Nat.iter (S k)
                   (Avatar64.emotionTick Gemini.angry (1 / 60))
                   Avatar64.emotion0
                 = Avatar64.mkEmotion Gemini.angry 1).
    { replace (S k) with ((S k - 20) + 20)%nat by lia.
      rewrite Nat.iter_add.
      replace (Nat.iter 20
                 (Avatar64.emotionTick Gemini.angry (1 / 60))
                 Avatar64.emotion0)
        with (Avatar64.mkEmotion Gemini.angry 1)
        by (vm_compute; reflexivity).
      apply angry_blend_stays. }
    rewrite emotionFrames64_angry, Hstate, Hb. split; vm_compute; reflexivity.
Qed.

#[warnings="-inexact-float"]
Lemma C8_angry_weight_is_0_7_from_frame_20_on_witness :
  Avatar64.getValue
    (snd (Avatar64.emotionFrames 20 Gemini.angry (1 / 60)
            (Avatar64.emotion0, Avatar64.no_expression)))
    Avatar.Angry
  = 0.7.
Proof.
  destruct (C8_angry_weight_is_0_7_from_frame_20_on Avatar64.emotion0
              Avatar64.no_expression 20 eq_refl) as [_ H].
  destruct (H (le_n 20)) as [Hw _]. exact Hw.
Defined.

End EmotionBinary64.

Lemma fade_one_same (delta : Q) (em : Avatar.ExpressionManager)
  (c : Avatar.VRMExpressionPresetName) :
  Avatar.fade_one delta em c c
  = if JS.ltb 0 (em c)
    then JS.clamp01 (JS.Math_max 0 (em c - delta * 3))
    else em c.
Proof.
  unfold Avatar.fade_one, Avatar.getValue, Avatar.setValue, Avatar.emotionSpeed.
  destruct (JS.ltb 0 (em c)); [| reflexivity].
  destruct c; reflexivity.
Qed.

(** Each preset of the fade list is faded once, from its own old weight. *)
Lemma fade_all_at (delta : Q) (em : Avatar.ExpressionManager)
  (c : Avatar.VRMExpressionPresetName) :
  In c Avatar.expressionsToReset ->
  Avatar.fade_all delta em c = Avatar.fade_one delta em c c.
Proof.
  unfold Avatar.fade_all, Avatar.expressionsToReset. simpl.
  intros [<- | [<- | [<- | [<- | [<- | []]]]]];
    rewrite ?fade_one_other by reflexivity;
    rewrite !fade_one_same;
    rewrite ?fade_one_other by reflexivity; reflexivity.
Qed.

Lemma fade_all_other (delta : Q) (em : Avatar.ExpressionManager)
  (c : Avatar.VRMExpressionPresetName) :
  ~ In c Avatar.expressionsToReset ->
  Avatar.fade_all delta em c = em c.
Proof.
  unfold Avatar.fade_all, Avatar.expressionsToReset. simpl. intro H.
  destruct c; try (exfalso; tauto);
    rewrite ?fade_one_other by reflexivity; reflexivity.
Qed.

(** C5 (as stated, refuted): on the first frame from the initial state,
    with the label [neutral] and a frame time of 1/60 s, the Neutral preset,
    a ninth channel, is set to the positive weight 0.035. *)
Lemma C5_neutral_label_drives_the_neutral_preset :
  Avatar.emotionToVRMExpression Gemini.neutral = Some Avatar.Neutral
  /\ Avatar.getValue
       (Avatar.expressionManager
          (Avatar.useFrame (fun _ => 0) 0
             (Avatar.mkInput false 0 Gemini.neutral (1 # 60) 0 0 0 0 0)
             Avatar.refs0))
       Avatar.Neutral == 0.035
  /\ 0 < Avatar.getValue
           (Avatar.expressionManager
              (Avatar.useFrame (fun _ => 0) 0
                 (Avatar.mkInput false 0 Gemini.neutral (1 # 60) 0 0 0 0 0)
                 Avatar.refs0))
           Avatar.Neutral.
Proof. repeat split; vm_compute; reflexivity. Qed.

(** C5 (amended): with the label [neutral], a frame with frame time
    [delta >= 0] on weights in [0,1] lowers each of happy, angry, sad,
    surprised and relaxed to [max(0, w - delta * 3)], sets none of the five
    to a target weight, leaves the mouth and blink presets as they are, and
    sets the Neutral preset to the blend value times 0.7 (saturated). *)
Theorem C5_neutral_fades_the_five_and_sets_neutral
  (delta : Q) (e : Avatar.EmotionState) (em : Avatar.ExpressionManager) :
  0 <= delta ->
  (forall c, 0 <= em c <= 1) ->
  let e' := fst (Avatar.emotionFrame Gemini.neutral delta e em) in
  let em' := snd (Avatar.emotionFrame Gemini.neutral delta e em) in
  (forall c, In c [Avatar.Happy; Avatar.Angry; Avatar.Sad;
                   Avatar.Surprised; Avatar.Relaxed] ->
     Avatar.getValue em' c == JS.Math_max 0 (em c - delta * 3)
     /\ 0 <= Avatar.getValue em' c <= em c)
  /\ Avatar.getValue em' Avatar.Neutral
     = JS.clamp01 (Avatar.blendValue e' * 0.7)
  /\ (forall c, In c [Avatar.Aa; Avatar.Oh; Avatar.Blink] ->
        Avatar.getValue em' c = em c).
Proof.
  intros Hd Hem e' em'. subst e' em'. unfold Avatar.emotionFrame.
  cbn [fst snd]. unfold Avatar.apply_emotion. cbn [Avatar.emotionToVRMExpression].
  unfold Avatar.getValue. split; [| split].
  - intros c Hc.
    assert (Hv : Avatar.setValue (Avatar.fade_all delta em) Avatar.Neutral
                   (Avatar.blendValue
                      (Avatar.emotionTick Gemini.neutral delta e) * 0.7) c
                 = Avatar.fade_one delta em c c).
    { rewrite <- (fade_all_at delta em c Hc).
      unfold Avatar.setValue.
      simpl in Hc. destruct Hc as [<- | [<- | [<- | [<- | [<- | []]]]]];
        reflexivity. }
    rewrite Hv, fade_one_same. specialize (Hem c).
    destruct (JS.ltb 0 (em c)) eqn:E.
    + apply ltb_true in E. unfold JS.clamp01. split; minmax; lra.
    + apply ltb_false in E. split; minmax; lra.
  - reflexivity.
  - intros c Hc. unfold Avatar.setValue.
    simpl in Hc. destruct Hc as [<- | [<- | [<- | []]]]; simpl;
      apply fade_all_other; simpl; intuition discriminate.
Qed.

Lemma C5_neutral_fades_the_five_and_sets_neutral_witness :
  Avatar.getValue
    (snd (Avatar.emotionFrame Gemini.neutral (1 # 10)
            (Avatar.mkEmotion Gemini.happy 1)
            (fun c => if Avatar.preset_eqb c Avatar.Happy then 0.7 else 0)))
    Avatar.Happy
  == 0.4.
Proof.
  destruct (C5_neutral_fades_the_five_and_sets_neutral (1 # 10)
              (Avatar.mkEmotion Gemini.happy 1)
              (fun c => if Avatar.preset_eqb c Avatar.Happy then 0.7 else 0))
    as [H _].
  - discriminate.
  - intro c. destruct c; simpl; lra.
  - destruct (H Avatar.Happy (or_introl eq_refl)) as [Hv _].
    rewrite Hv. vm_compute. reflexivity.
Defined.

(** ** Pose selection *)

Lemma poseBlend_indices (delta : Q) (p : Avatar.PoseAnim) :
  Avatar.currentPoseIndex (Avatar.poseBlend delta p) = Avatar.currentPoseIndex p
  /\ Avatar.targetPoseIndex (Avatar.poseBlend delta p) = Avatar.targetPoseIndex p.
Proof.
  unfold Avatar.poseBlend.
  destruct (JS.ltb (Avatar.blendFactor p) 1); split; reflexivity.
Qed.

Lemma poseTick_decided (isSpeaking : bool) (label : Gemini.EmotionTag)
  (delta random : Q) (p : Avatar.PoseAnim) :
  Avatar.decides isSpeaking delta p = true ->
  let p' := Avatar.poseTick isSpeaking label delta random p in
  Avatar.currentPoseIndex p' = Avatar.targetPoseIndex p
  /\ Avatar.targetPoseIndex p'
     = Avatar.noRepeat (Avatar.choosePose isSpeaking label random)
                       (Avatar.targetPoseIndex p).
Proof.
  unfold Avatar.decides. intros Hd. cbv zeta. unfold Avatar.poseTick.
  destruct (poseBlend_indices delta
              (Avatar.poseDecide isSpeaking label delta random p)) as [Hc Ht].
  rewrite Hc, Ht. unfold Avatar.poseDecide. rewrite Hd. split; reflexivity.
Qed.

Lemma poseTick_undecided (isSpeaking : bool) (label : Gemini.EmotionTag)
  (delta random : Q) (p : Avatar.PoseAnim) :
  Avatar.decides isSpeaking delta p = false ->
  let p' := Avatar.poseTick isSpeaking label delta random p in
  Avatar.currentPoseIndex p' = Avatar.currentPoseIndex p
  /\ Avatar.targetPoseIndex p' = Avatar.targetPoseIndex p.
Proof.
  unfold Avatar.decides. intros Hd. cbv zeta. unfold Avatar.poseTick.
  destruct (poseBlend_indices delta
              (Avatar.poseDecide isSpeaking label delta random p)) as [Hc Ht].
  rewrite Hc, Ht. unfold Avatar.poseDecide. rewrite Hd. split; reflexivity.
Qed.

Lemma noRepeat_differs (n c : nat) : Avatar.noRepeat n c <> c.
Proof.
  unfold Avatar.noRepeat. destruct (Nat.eqb n c) eqn:E.
  - apply Nat.eqb_eq in E. subst n.
    change (List.length Avatar.poses) with 5%nat.
    pose proof (Nat.mod_upper_bound (c + 1) 5 ltac:(lia)) as Hb.
    destruct (le_lt_dec 5 c) as [Hc | Hc]; [lia |].
    do 5 (destruct c as [| c]; [simpl; lia |]). lia.
  - apply Nat.eqb_neq in E. exact E.
Qed.

Lemma noRepeat_in_catalog (n c : nat) :
  (n < 5)%nat -> (Avatar.noRepeat n c < 5)%nat.
Proof.
  intro Hn. unfold Avatar.noRepeat. destruct (Nat.eqb n c).
  - change (List.length Avatar.poses) with 5%nat.
    apply Nat.mod_upper_bound. lia.
  - exact Hn.
Qed.

(** A draw in [0,1) indexes inside the array. *)
Lemma pick_in (arr : list nat) (random : Q) :
  arr <> [] -> Avatar.is_random random -> In (Avatar.pick arr random) arr.
Proof.
  intros Hne [H0 H1]. unfold Avatar.pick, JS.Math_floor. apply nth_In.
  set (len := inject_Z (Z.of_nat (List.length arr))).
  assert (Hlen : 0 < len).
  { unfold len. change 0 with (inject_Z 0). rewrite <- Zlt_Qlt.
    destruct arr; [congruence | simpl; lia]. }
  assert (Hlo : (0 <= Qfloor (random * len))%Z).
  { change 0%Z with (Qfloor 0). apply Qfloor_resp_le. nra. }
  assert (Hhi : (Qfloor (random * len) < Z.of_nat (List.length arr))%Z).
  { rewrite Zlt_Qlt. fold len.
    pose proof (Qfloor_le (random * len)). nra. }
  lia.
Qed.

Lemma choosePose_in_catalog (isSpeaking : bool) (label : Gemini.EmotionTag)
  (random : Q) :
  Avatar.is_random random ->
  (Avatar.choosePose isSpeaking label random < 5)%nat.
Proof.
  intro Hr. unfold Avatar.choosePose.
  assert (Hs : (Avatar.pick Avatar.speakingPoses random < 5)%nat).
  { pose proof (pick_in Avatar.speakingPoses random ltac:(discriminate) Hr) as H.
    simpl in H. lia. }
  assert (Hi : (Avatar.pick Avatar.idlePoses random < 5)%nat).
  { pose proof (pick_in Avatar.idlePoses random ltac:(discriminate) Hr) as H.
    simpl in H. lia. }
  destruct isSpeaking; [exact Hs |]. destruct label; try exact Hi; lia.
Qed.

(** C6: along every sequence of frames, from any pose state and for all
    random draws in [0,1), each decision makes the previous target the
    current index and selects a target different from it, inside the
    catalog of five, a chosen index equal to the current one being advanced
    by one modulo 5; so no index is selected by two consecutive decisions,
    the first differing from the target in force at the start. *)
Theorem C6_no_pose_selected_twice_in_a_row
  (inputs : list Avatar.FrameInput) (p : Avatar.PoseAnim) :
  Forall (fun i => Avatar.is_random (Avatar.rndPose i)) inputs ->
  no_consecutive_repeat (Avatar.targetPoseIndex p :: decisionsOf inputs p)
  /\ Forall (fun t => (t < 5)%nat) (decisionsOf inputs p)
  /\ (forall i, In i inputs ->
        Avatar.decides (Avatar.isSpeaking i) (Avatar.delta i) p = true ->
        let p' := Avatar.poseTick (Avatar.isSpeaking i) (Avatar.currentEmotion i)
                    (Avatar.delta i) (Avatar.rndPose i) p in
        let chosen := Avatar.choosePose (Avatar.isSpeaking i)
                        (Avatar.currentEmotion i) (Avatar.rndPose i) in
        Avatar.currentPoseIndex p' = Avatar.targetPoseIndex p
        /\ Avatar.targetPoseIndex p' <> Avatar.currentPoseIndex p'
        /\ Avatar.targetPoseIndex p'
           = if Nat.eqb chosen (Avatar.currentPoseIndex p')
             then ((chosen + 1) mod 5)%nat else chosen).
Proof.
  intro Hall. split; [| split].
  - revert p. induction Hall as [| i rest Hi Hrest IH]; intro p.
    + simpl. exact I.
    + cbn [decisionsOf].
      destruct (Avatar.decides (Avatar.isSpeaking i) (Avatar.delta i) p) eqn:Hd.
      * destruct (poseTick_decided (Avatar.isSpeaking i) (Avatar.currentEmotion i)
                    (Avatar.delta i) (Avatar.rndPose i) p Hd) as [_ Ht].
        split; [| apply IH].
        rewrite Ht. intro E. symmetry in E. revert E. apply noRepeat_differs.
      * destruct (poseTick_undecided (Avatar.isSpeaking i)
                    (Avatar.currentEmotion i) (Avatar.delta i)
                    (Avatar.rndPose i) p Hd) as [_ Ht].
        rewrite <- Ht. apply IH.
  - revert p. induction Hall as [| i rest Hi Hrest IH]; intro p.
    + constructor.
    + cbn [decisionsOf].
      destruct (Avatar.decides (Avatar.isSpeaking i) (Avatar.delta i) p) eqn:Hd.
      * constructor; [| apply IH].
        destruct (poseTick_decided (Avatar.isSpeaking i) (Avatar.currentEmotion i)
                    (Avatar.delta i) (Avatar.rndPose i) p Hd) as [_ Ht].
        rewrite Ht. apply noRepeat_in_catalog.
        apply choosePose_in_catalog. exact Hi.
      * apply IH.
  - intros i _ Hd p' chosen.
    destruct (poseTick_decided (Avatar.isSpeaking i) (Avatar.currentEmotion i)
                (Avatar.delta i) (Avatar.rndPose i) p Hd) as [Hc Ht].
    fold p' in Hc, Ht. split; [exact Hc | split].
    + rewrite Hc, Ht. apply noRepeat_differs.
    + rewrite Hc, Ht. reflexivity.
Qed.

Lemma C6_no_pose_selected_twice_in_a_row_witness :
  decisionsOf
    [Avatar.mkInput true 0 Gemini.neutral 3 0 0 0 0 0;
     Avatar.mkInput true 0 Gemini.neutral 3 0 0 0 0 0;
     Avatar.mkInput false 0 Gemini.angry 6 0 0 0 0 0;
     Avatar.mkInput false 0 Gemini.angry 6 0 0 0 0 0]
    Avatar.poseAnim0
  = [1; 2; 1; 2]%nat
  /\ no_consecutive_repeat
       (Avatar.targetPoseIndex Avatar.poseAnim0
        :: decisionsOf
             [Avatar.mkInput true 0 Gemini.neutral 3 0 0 0 0 0;
              Avatar.mkInput true 0 Gemini.neutral 3 0 0 0 0 0;
              Avatar.mkInput false 0 Gemini.angry 6 0 0 0 0 0;
              Avatar.mkInput false 0 Gemini.angry 6 0 0 0 0 0]
             Avatar.poseAnim0).
Proof.
  split; [vm_compute; reflexivity |].
  apply (C6_no_pose_selected_twice_in_a_row
           [Avatar.mkInput true 0 Gemini.neutral 3 0 0 0 0 0;
            Avatar.mkInput true 0 Gemini.neutral 3 0 0 0 0 0;
            Avatar.mkInput false 0 Gemini.angry 6 0 0 0 0 0;
            Avatar.mkInput false 0 Gemini.angry 6 0 0 0 0 0]
           Avatar.poseAnim0).
  repeat constructor; simpl; discriminate.
Defined.

(** ** Blinking *)

(** A blink starts on the first frame that finds the timer run out, and the
    timer is then set to the next interval, between 2 and 6 seconds. *)
Lemma blink_onset Math_sin Math_PI (delta random1 random2 : Q)
  (b : Avatar.BlinkState) (em : Avatar.ExpressionManager) :
  Avatar.is_random random1 ->
  Avatar.isBlinking b = false ->
  Avatar.timer b - delta <= 0 ->
  fst (Avatar.blinkTick Math_sin Math_PI delta random1 random2 b em)
  = {| Avatar.timer := 2 + random1 * 4; Avatar.isBlinking := true |}.
Proof.
  intros [H0 H1] Hb Ht. unfold Avatar.blinkTick.
  apply leb_true in Ht. rewrite Ht, Hb. simpl.
  replace (JS.leb 1 (1 - (2 + random1 * 4) / 0.15)) with false; [reflexivity |].
  symmetry. apply leb_false.
  assert (H : (2 + random1 * 4) / 0.15 == (2 + random1 * 4) * (100 # 15))
    by (unfold Qdiv; reflexivity).
  rewrite H. lra.
Qed.

(** A blink in progress goes on for as long as the timer stays positive. *)
Lemma blink_goes_on Math_sin Math_PI (delta random1 random2 : Q)
  (b : Avatar.BlinkState) (em : Avatar.ExpressionManager) :
  Avatar.isBlinking b = true ->
  0 < Avatar.timer b - delta ->
  fst (Avatar.blinkTick Math_sin Math_PI delta random1 random2 b em)
  = {| Avatar.timer := Avatar.timer b - delta; Avatar.isBlinking := true |}.
Proof.
  intros Hb Ht. unfold Avatar.blinkTick. rewrite Hb, andb_false_r. simpl.
  replace (JS.leb 1 (1 - (Avatar.timer b - delta) / 0.15)) with false;
    [reflexivity |].
  symmetry. apply leb_false.
  assert (H : (Avatar.timer b - delta) / 0.15
              == (Avatar.timer b - delta) * (100 # 15))
    by (unfold Qdiv; reflexivity).
  rewrite H. lra.
Qed.

(** C1 (the code at the failing input): with every random draw equal to 0,
    the first frame from the initial state starts a blink and sets the
    timer to 2 s.  At 30 frames per second the blink is still in progress 5
    frames (0.167 s) and 59 frames later and ends on the 60th frame after
    onset, 2 s after it started, that frame setting the blink weight to 0;
    at 144 frames per second it is still in progress 22 frames (0.153 s)
    after onset, with 1.847 s left on the timer. *)
Theorem C1_blink_lasts_two_seconds Math_sin Math_PI :
  let after (dt : Q) (n : nat) :=
    blinkFrames Math_sin Math_PI (repeat (dt, 0, 0) n)
                (Avatar.blink0, Avatar.no_expression) in
  (fst (after (1 # 30) 1%nat) = Avatar.mkBlink 2 true
   /\ Avatar.isBlinking (fst (after (1 # 30) (1 + 5)%nat)) = true
   /\ Avatar.isBlinking (fst (after (1 # 30) (1 + 59)%nat)) = true
   /\ Avatar.isBlinking (fst (after (1 # 30) (1 + 60)%nat)) = false
   /\ Avatar.getValue (snd (after (1 # 30) (1 + 60)%nat)) Avatar.Blink == 0)
  /\ (fst (after (1 # 144) 1%nat) = Avatar.mkBlink 2 true
   /\ Avatar.isBlinking (fst (after (1 # 144) (1 + 22)%nat)) = true
   /\ Avatar.timer (fst (after (1 # 144) (1 + 22)%nat)) == 2 - 22 * (1 # 144)).
Proof.
  cbv zeta. repeat split; vm_compute; reflexivity.
Qed.

(** ** The emotion-tag parser *)

Open Scope string_scope.

Lemma span_word_spec (s : string) :
  forall w r, Gemini.span_word s = (w, r) ->
  s = w ++ r /\ all_word w = true
  /\ match r with
     | String c _ => Gemini.is_word c = false
     | EmptyString => True
     end.
Proof.
  induction s as [| c s IH]; intros w r H; simpl in H.
  - inversion H; subst. repeat split.
  - destruct (Gemini.is_word c) eqn:Ec.
    + destruct (Gemini.span_word s) as [w' r'] eqn:Es.
      inversion H; subst. destruct (IH w' r eq_refl) as [Hs [Hw Hr]].
      simpl. rewrite Ec, Hw. rewrite <- Hs. repeat split. exact Hr.
    + inversion H; subst. repeat split. exact Ec.
Qed.

Lemma span_word_bracket (w rest : string) :
  all_word w = true ->
  Gemini.span_word (w ++ String "]" rest) = (w, String "]" rest).
Proof.
  induction w as [| c w IH]; intro Hw; simpl.
  - reflexivity.
  - simpl in Hw. apply andb_true_iff in Hw. destruct Hw as [Hc Hw].
    rewrite Hc, (IH Hw). reflexivity.
Qed.

(** The pattern matches exactly the strings that open with a bracketed,
    non-empty run of word characters. *)
Lemma match_tag_Some (response w rest : string) :
  Gemini.match_tag response = Some (w, rest) <->
  w <> "" /\ all_word w = true /\ response = "[" ++ w ++ "]" ++ rest.
Proof.
  split.
  - unfold Gemini.match_tag. intro H.
    destruct response as [| c s]; [discriminate |].
    destruct (Ascii.eqb c "[") eqn:Eb.
    + apply Ascii.eqb_eq in Eb. subst c.
      destruct (Gemini.span_word s) as [w' r'] eqn:Es.
      destruct w' as [| c' w']; [discriminate |].
      destruct r' as [| d r']; [discriminate |].
      destruct (Ascii.eqb d "]") eqn:Ed.
      * apply Ascii.eqb_eq in Ed. subst d. inversion H; subst.
        destruct (span_word_spec s _ _ Es) as [Hs [Hw _]].
        repeat split; [discriminate | exact Hw |].
        simpl. rewrite Hs. reflexivity.
      * exfalso. apply Ascii.eqb_neq in Ed.
        destruct d as [[] [] [] [] [] [] [] []]; try discriminate H.
        apply Ed. reflexivity.
    + exfalso. apply Ascii.eqb_neq in Eb.
      destruct c as [[] [] [] [] [] [] [] []]; try discriminate H.
      apply Eb. reflexivity.
  - intros [Hne [Hw ->]]. unfold Gemini.match_tag. simpl.
    rewrite (span_word_bracket w rest Hw).
    destruct w; [congruence | reflexivity].
Qed.

(** C4 (as stated, refuted): a reply that opens with the unrecognized tag
    [[flabbergasted]] is given the emotion "flabbergasted", not
    "neutral". *)
Lemma C4_unrecognized_tag_is_returned_as_is :
  Gemini.emotion
    (Gemini.parseEmotionFromResponse "[flabbergasted] I did not expect that!")
  = "flabbergasted"
  /\ Gemini.recognized "flabbergasted" = false
  /\ Gemini.emotion
       (Gemini.parseEmotionFromResponse "[flabbergasted] I did not expect that!")
     <> "neutral".
Proof. repeat split; try reflexivity. vm_compute. discriminate. Qed.

(** C4 (amended): on every reply the parser returns a result, never an
    error; the emotion is "neutral" whenever the reply does not open with a
    bracketed word, and is otherwise the bracketed word in lower case,
    whether or not it is one of the thirteen recognized values. *)
Theorem C4_emotion_is_the_leading_tag_or_neutral :
  (forall w rest : string,
     w <> "" -> all_word w = true ->
     Gemini.emotion (Gemini.parseEmotionFromResponse ("[" ++ w ++ "]" ++ rest))
     = Gemini.toLowerCase w)
  /\ (forall response : string,
        (forall w rest, w <> "" -> all_word w = true ->
                        response <> "[" ++ w ++ "]" ++ rest) ->
        Gemini.emotion (Gemini.parseEmotionFromResponse response) = "neutral")
  /\ (forall response : string,
        Gemini.rawResponse (Gemini.parseEmotionFromResponse response) = response).
Proof.
  split; [| split].
  - intros w rest Hne Hw. unfold Gemini.parseEmotionFromResponse.
    replace (Gemini.match_tag ("[" ++ w ++ "]" ++ rest)) with (Some (w, rest)).
    + reflexivity.
    + symmetry. apply match_tag_Some. auto.
  - intros response H. unfold Gemini.parseEmotionFromResponse.
    destruct (Gemini.match_tag response) as [[w rest] |] eqn:E.
    + apply match_tag_Some in E. destruct E as [Hne [Hw Hr]].
      exfalso. exact (H w rest Hne Hw Hr).
    + reflexivity.
  - intro response. unfold Gemini.parseEmotionFromResponse.
    destruct (Gemini.match_tag response) as [[w rest] |]; reflexivity.
Qed.

(** * Further properties of the audio service *)

Close Scope string_scope.

Lemma handle_ok_step (s : ElevenLabs.Service) (e : ElevenLabs.Event) :
  handle_ok s -> handle_ok (fst (ElevenLabs.step s e)).
Proof.
  unfold handle_ok. intro Hs.
  destruct e as [| d | d | | |]; simpl.
  - exact Hs.
  - unfold ElevenLabs.onplay, ElevenLabs.startAudioAnalysis, ElevenLabs.analyze.
    simpl. destruct (ElevenLabs.analyser s); simpl; [reflexivity |].
    destruct (ElevenLabs.animationFrameId s); simpl; auto.
  - destruct (ElevenLabs.pending s) eqn:Ep; [| simpl; rewrite Ep; exact Hs].
    unfold ElevenLabs.frame, ElevenLabs.analyze. simpl.
    destruct (negb (ElevenLabs.analyser s) || negb (ElevenLabs.isPlaying s));
      simpl; [discriminate | reflexivity].
  - destruct (ElevenLabs.animationFrameId s); simpl; auto; discriminate.
  - destruct (ElevenLabs.animationFrameId s); simpl; auto; discriminate.
  - exact Hs.
Qed.

Lemma handle_ok_run (es : list ElevenLabs.Event) (s : ElevenLabs.Service) :
  handle_ok s -> handle_ok (fst (ElevenLabs.run s es)).
Proof.
  revert s. induction es as [| e es IH]; intros s Hs; simpl.
  - exact Hs.
  - pose proof (handle_ok_step s e Hs) as H1.
    destruct (ElevenLabs.step s e) as [s1 o].
    pose proof (IH s1 H1) as H2.
    destruct (ElevenLabs.run s1 es) as [s2 outs]. exact H2.
Qed.

Lemma run_idle_frames (s : ElevenLabs.Service) (ds : list ElevenLabs.AudioFrame) :
  ElevenLabs.pending s = false ->
  ElevenLabs.run s (map ElevenLabs.EvFrame ds) = (s, []).
Proof.
  intro Hp. induction ds as [| d ds IH]; simpl.
  - reflexivity.
  - rewrite Hp. rewrite IH. reflexivity.
Qed.

(** X1: whatever happened before, [stop()] (and likewise the ended and error
    handlers) leaves the service not playing, at level 0, with no frame
    handle and no frame callback pending: frame callbacks that might still
    be delivered afterwards run nothing and publish nothing. *)
Theorem X1_stop_leaves_no_pending_analysis
  (es : list ElevenLabs.Event) (ds : list ElevenLabs.AudioFrame) :
  let s := fst (ElevenLabs.run ElevenLabs.initial es) in
  let stopped := fst (ElevenLabs.stop s) in
  ElevenLabs.pending stopped = false
  /\ ElevenLabs.animationFrameId stopped = false
  /\ ElevenLabs.isPlaying stopped = false
  /\ ElevenLabs.currentAudioLevel stopped = 0
  /\ snd (ElevenLabs.stop s) = ElevenLabs.mkAudioState false 0
  /\ fst (ElevenLabs.onended s) = stopped
  /\ ElevenLabs.run stopped (map ElevenLabs.EvFrame ds) = (stopped, []).
Proof.
  intros s stopped.
  assert (Hs : handle_ok s).
  { apply handle_ok_run. unfold handle_ok. simpl. discriminate. }
  assert (Hp : ElevenLabs.pending stopped = false).
  { subst stopped. unfold handle_ok in Hs. simpl.
    destruct (ElevenLabs.animationFrameId s); [reflexivity |].
    destruct (ElevenLabs.pending s); [| reflexivity].
    discriminate (Hs eq_refl). }
  repeat split; try exact Hp.
  apply run_idle_frames. exact Hp.
Qed.

(** X2: when a [speak] call fails while a frame callback is pending, the
    callbacks still delivered publish exactly one more state, not playing
    and at level 0, and leave nothing pending: the analysis loop ends by
    itself. *)
Theorem X2_analysis_loop_ends_after_failure
  (s : ElevenLabs.Service) (d : ElevenLabs.AudioFrame)
  (ds : list ElevenLabs.AudioFrame) :
  ElevenLabs.pending s = true ->
  let failed := fst (ElevenLabs.speakFailed s) in
  snd (ElevenLabs.run failed (map ElevenLabs.EvFrame (d :: ds)))
  = [ElevenLabs.mkAudioState false 0]
  /\ ElevenLabs.pending
       (fst (ElevenLabs.run failed (map ElevenLabs.EvFrame (d :: ds)))) = false
  /\ ElevenLabs.currentAudioLevel
       (fst (ElevenLabs.run failed (map ElevenLabs.EvFrame (d :: ds)))) = 0.
Proof.
  intros Hp failed. subst failed. cbn [map ElevenLabs.run].
  unfold ElevenLabs.step, ElevenLabs.speakFailed. cbn [fst].
  cbn [ElevenLabs.set_isPlaying ElevenLabs.pending]. rewrite Hp.
  unfold ElevenLabs.frame, ElevenLabs.analyze.
  cbn [ElevenLabs.analyser ElevenLabs.isPlaying negb orb].
  rewrite orb_true_r. cbn zeta.
  match goal with
  | |- context [ElevenLabs.run ?s0 (map ElevenLabs.EvFrame ds)] =>
      rewrite (run_idle_frames s0 ds eq_refl)
  end.
  repeat split.
Qed.

Lemma X2_analysis_loop_ends_after_failure_witness :
  snd (ElevenLabs.run
         (fst (ElevenLabs.speakFailed
                 (ElevenLabs.mkService true true true (1 # 2) true)))
         (map ElevenLabs.EvFrame [repeat 200%Z 128; repeat 200%Z 128]))
  = [ElevenLabs.mkAudioState false 0].
Proof.
  apply (X2_analysis_loop_ends_after_failure
           (ElevenLabs.mkService true true true (1 # 2) true)
           (repeat 200%Z 128) [repeat 200%Z 128]).
  reflexivity.
Defined.

Lemma fold_sum_le (f g : nat -> Z) (l : list nat) :
  (forall i, In i l -> (f i <= g i)%Z) ->
  (fold_left (fun sum i => (sum + f i)%Z) l 0
   <= fold_left (fun sum i => (sum + g i)%Z) l 0)%Z.
Proof.
  induction l as [| i l IH]; intro H; simpl.
  - lia.
  - rewrite (fold_add_shift f), (fold_add_shift g).
    pose proof (H i (or_introl eq_refl)).
    assert (forall j, In j l -> (f j <= g j)%Z) by (intros; apply H; now right).
    specialize (IH H1). lia.
Qed.

Lemma fold_sum_const (c : Z) (l : list nat) :
  fold_left (fun sum _ => (sum + c)%Z) l 0%Z = (c * Z.of_nat (List.length l))%Z.
Proof.
  induction l as [| i l IH].
  - simpl. lia.
  - cbn [fold_left List.length]. rewrite fold_add_shift, IH. lia.
Qed.

Lemma average_20 (d : ElevenLabs.AudioFrame) :
  (20 <= List.length d)%nat ->
  ElevenLabs.average d = inject_Z (ElevenLabs.sum_bins d 2 20) / 18.
Proof.
  intro H. unfold ElevenLabs.average, ElevenLabs.voiceRangeEnd,
    ElevenLabs.voiceRangeStart.
  replace (Nat.min 20 (List.length d)) with 20%nat by lia. reflexivity.
Qed.

(** X3: the raw level reads bins 2 to 19 only: two frames of at least 20
    bins that agree there give the same raw level, whatever bins 0, 1 and 20
    onwards hold. *)
Theorem X3_raw_level_ignores_other_bins (d1 d2 : ElevenLabs.AudioFrame) :
  (20 <= List.length d1)%nat ->
  (20 <= List.length d2)%nat ->
  (forall i, (2 <= i < 20)%nat -> nth i d1 0%Z = nth i d2 0%Z) ->
  ElevenLabs.normalized d1 = ElevenLabs.normalized d2.
Proof.
  intros H1 H2 H. unfold ElevenLabs.normalized.
  rewrite (average_20 d1 H1), (average_20 d2 H2).
  replace (ElevenLabs.sum_bins d1 2 20) with (ElevenLabs.sum_bins d2 2 20);
    [reflexivity |].
  apply Z.le_antisymm; unfold ElevenLabs.sum_bins; apply fold_sum_le;
    intros i Hi; apply in_seq in Hi; rewrite H by lia; lia.
Qed.

Lemma X3_raw_level_ignores_other_bins_witness :
  ElevenLabs.normalized ([255; 255] ++ repeat 90 18 ++ repeat 255 108)%Z
  = ElevenLabs.normalized (repeat 90%Z 20).
Proof.
  apply X3_raw_level_ignores_other_bins.
  - simpl. lia.
  - simpl. lia.
  - intros i Hi.
    do 20 (destruct i as [| i]; [try lia; reflexivity |]). lia.
Defined.

(** X4: on a frame of at least 20 bins, the raw level is 0 when every bin
    from 2 to 19 is at most 30, is 1 when every such bin is at least 180,
    and grows with the bins: raising bins never lowers it. *)
Theorem X4_raw_level_thresholds_and_monotone (d d' : ElevenLabs.AudioFrame) :
  (20 <= List.length d)%nat ->
  (20 <= List.length d')%nat ->
  ((forall i, (2 <= i < 20)%nat -> (nth i d 0 <= 30)%Z) ->
     ElevenLabs.normalized d == 0)
  /\ ((forall i, (2 <= i < 20)%nat -> (180 <= nth i d 0)%Z) ->
     ElevenLabs.normalized d == 1)
  /\ ((forall i, (2 <= i < 20)%nat -> (nth i d 0 <= nth i d' 0)%Z) ->
     ElevenLabs.normalized d <= ElevenLabs.normalized d').
Proof.
  intros Hl Hl'. unfold ElevenLabs.normalized.
  rewrite (average_20 d Hl), (average_20 d' Hl').
  repeat split.
  - intro H.
    assert (Hs : (ElevenLabs.sum_bins d 2 20 <= 30 * 18)%Z).
    { unfold ElevenLabs.sum_bins.
      rewrite (fold_sum_le (fun i => nth i d 0%Z) (fun _ => 30%Z)).
      - rewrite fold_sum_const. simpl. lia.
      - intros i Hi. apply in_seq in Hi. apply H. lia. }
    rewrite Zle_Qle in Hs. change (inject_Z (30 * 18)) with 540 in Hs.
    set (sm := inject_Z (ElevenLabs.sum_bins d 2 20)) in *.
    assert (Hq : (sm / 18 - 30) / 150 <= 0).
    { unfold Qdiv. change (/ 18) with (1 # 18). change (/ 150) with (1 # 150).
      lra. }
    minmax; lra.
  - intro H.
    assert (Hs : (180 * 18 <= ElevenLabs.sum_bins d 2 20)%Z).
    { unfold ElevenLabs.sum_bins.
      rewrite <- (fold_sum_le (fun _ => 180%Z) (fun i => nth i d 0%Z)).
      - rewrite fold_sum_const. simpl. lia.
      - intros i Hi. apply in_seq in Hi. apply H. lia. }
    rewrite Zle_Qle in Hs. change (inject_Z (180 * 18)) with 3240 in Hs.
    set (sm := inject_Z (ElevenLabs.sum_bins d 2 20)) in *.
    assert (Hq : 1 <= (sm / 18 - 30) / 150).
    { unfold Qdiv. change (/ 18) with (1 # 18). change (/ 150) with (1 # 150).
      lra. }
    minmax; lra.
  - intro H.
    assert (Hs : (ElevenLabs.sum_bins d 2 20 <= ElevenLabs.sum_bins d' 2 20)%Z).
    { unfold ElevenLabs.sum_bins. apply fold_sum_le.
      intros i Hi. apply in_seq in Hi. apply H. lia. }
    rewrite Zle_Qle in Hs.
    set (sm := inject_Z (ElevenLabs.sum_bins d 2 20)) in *.
    set (sm' := inject_Z (ElevenLabs.sum_bins d' 2 20)) in *.
    assert (Hq : (sm / 18 - 30) / 150 <= (sm' / 18 - 30) / 150).
    { unfold Qdiv. change (/ 18) with (1 # 18). change (/ 150) with (1 # 150).
      lra. }
    minmax; lra.
Qed.

Lemma X4_raw_level_thresholds_and_monotone_witness :
  ElevenLabs.normalized (repeat 30%Z 128) == 0
  /\ ElevenLabs.normalized (repeat 180%Z 128) == 1.
Proof.
  split.
  - apply (X4_raw_level_thresholds_and_monotone
             (repeat 30%Z 128) (repeat 30%Z 128)).
    + rewrite repeat_length. lia.
    + rewrite repeat_length. lia.
    + intros i Hi. do 20 (destruct i as [| i]; [simpl; lia |]). lia.
  - apply (X4_raw_level_thresholds_and_monotone
             (repeat 180%Z 128) (repeat 180%Z 128)).
    + rewrite repeat_length. lia.
    + rewrite repeat_length. lia.
    + intros i Hi. do 20 (destruct i as [| i]; [simpl; lia |]). lia.
Defined.

(** X5: while audio plays, [n] frame callbacks on the same frame publish [n]
    states and move the level towards the frame's raw level geometrically:
    the remaining distance is the initial one times [0.3] to the [n]. *)
Theorem X5_level_converges_geometrically
  (s : ElevenLabs.Service) (d : ElevenLabs.AudioFrame) (n : nat) :
  ElevenLabs.analyser s = true ->
  ElevenLabs.isPlaying s = true ->
  ElevenLabs.pending s = true ->
  let r := ElevenLabs.run s (repeat (ElevenLabs.EvFrame d) n) in
  ElevenLabs.currentAudioLevel (fst r)
  == ElevenLabs.normalized d
     + (ElevenLabs.currentAudioLevel s - ElevenLabs.normalized d) * powQ 0.3 n
  /\ List.length (snd r) = n
  /\ ElevenLabs.pending (fst r) = true.
Proof.
  revert s. induction n as [| n IH]; intros s Ha Hp Hq.
  - simpl. repeat split; [lra | exact Hq].
  - cbn [repeat ElevenLabs.run]. unfold ElevenLabs.step. rewrite Hq.
    unfold ElevenLabs.frame, ElevenLabs.analyze.
    cbn [ElevenLabs.analyser ElevenLabs.isPlaying]. rewrite Ha, Hp.
    cbn [negb orb].
    match goal with
    | |- context [ElevenLabs.run ?s1 (repeat _ n)] =>
        specialize (IH s1 eq_refl eq_refl eq_refl);
        destruct (ElevenLabs.run s1 (repeat (ElevenLabs.EvFrame d) n))
          as [s2 outs]
    end.
    cbv zeta in IH. cbn [fst snd ElevenLabs.currentAudioLevel] in IH |- *.
    destruct IH as [Hl [Hn Hpend]].
    repeat split; [| simpl; rewrite Hn; reflexivity | exact Hpend].
    rewrite Hl. cbn [powQ]. lra.
Qed.

Lemma X5_level_converges_geometrically_witness :
  ElevenLabs.currentAudioLevel
    (fst (ElevenLabs.run (ElevenLabs.mkService true true true 0 true)
            (repeat (ElevenLabs.EvFrame (repeat 180%Z 128)) 3)))
  == 0.973.
Proof.
  destruct (X5_level_converges_geometrically
              (ElevenLabs.mkService true true true 0 true)
              (repeat 180%Z 128) 3 eq_refl eq_refl eq_refl) as [H _].
  rewrite H. vm_compute. reflexivity.
Defined.

(** * Further properties of the reply parser *)

Open Scope string_scope.

Lemma trimStart_first (s : string) : first_is_space (Gemini.trimStart s) = false.
Proof.
  induction s as [| c s IH]; simpl; [reflexivity |].
  destruct (Gemini.is_space c) eqn:E; [exact IH | simpl; exact E].
Qed.

Lemma trimStart_fixed (s : string) :
  first_is_space s = false -> Gemini.trimStart s = s.
Proof.
  destruct s as [| c s]; simpl; [reflexivity |]. intro E. rewrite E. reflexivity.
Qed.

Lemma trimStart_spaces (ws m : string) :
  all_space ws = true -> Gemini.trimStart (ws ++ m) = Gemini.trimStart m.
Proof.
  induction ws as [| c ws IH]; simpl; [reflexivity |].
  intro H. apply andb_true_iff in H. destruct H as [Hc Hw].
  rewrite Hc. apply IH. exact Hw.
Qed.

Lemma trimEnd_first (s : string) :
  first_is_space s = false -> first_is_space (Gemini.trimEnd s) = false.
Proof.
  destruct s as [| c s]; simpl; [reflexivity |]. intro E.
  destruct (Gemini.trimEnd s); [rewrite E |]; simpl; exact E.
Qed.

Lemma trimEnd_last (s : string) : last_is_space (Gemini.trimEnd s) = false.
Proof.
  induction s as [| c s IH]; simpl; [reflexivity |].
  destruct (Gemini.trimEnd s) as [| c' t] eqn:Et.
  - destruct (Gemini.is_space c) eqn:E; simpl; [reflexivity | exact E].
  - simpl in *. exact IH.
Qed.

Lemma trimEnd_cons (c : ascii) (s : string) :
  Gemini.trimEnd (String c s)
  = match Gemini.trimEnd s with
    | EmptyString =>
        if Gemini.is_space c then EmptyString else String c EmptyString
    | t => String c t
    end.
Proof. reflexivity. Qed.

Lemma trimEnd_idempotent (s : string) :
  Gemini.trimEnd (Gemini.trimEnd s) = Gemini.trimEnd s.
Proof.
  induction s as [| c s IH]; [reflexivity |].
  rewrite trimEnd_cons.
  destruct (Gemini.trimEnd s) as [| c' t] eqn:Et.
  - destruct (Gemini.is_space c) eqn:E; [reflexivity |].
    rewrite trimEnd_cons. simpl. rewrite E. reflexivity.
  - rewrite trimEnd_cons. rewrite IH. reflexivity.
Qed.

Lemma trim_idempotent (s : string) : Gemini.trim (Gemini.trim s) = Gemini.trim s.
Proof.
  unfold Gemini.trim.
  rewrite (trimStart_fixed (Gemini.trimEnd (Gemini.trimStart s))).
  - apply trimEnd_idempotent.
  - apply trimEnd_first, trimStart_first.
Qed.

Lemma trim_edges (s : string) :
  first_is_space (Gemini.trim s) = false /\ last_is_space (Gemini.trim s) = false.
Proof.
  unfold Gemini.trim. split.
  - apply trimEnd_first, trimStart_first.
  - apply trimEnd_last.
Qed.

(** X6: whatever the reply, the text handed on has no whitespace at either
    end, and trimming it again changes nothing. *)
Theorem X6_text_is_trimmed (response : string) :
  let t := Gemini.text (Gemini.parseEmotionFromResponse response) in
  first_is_space t = false /\ last_is_space t = false /\ Gemini.trim t = t.
Proof.
  unfold Gemini.parseEmotionFromResponse.
  destruct (Gemini.match_tag response) as [[w rest] |]; cbn [Gemini.text];
    (split; [apply trim_edges | split; [apply trim_edges | apply trim_idempotent]]).
Qed.

Lemma lower_char_word (c : ascii) :
  Gemini.is_word c = true -> Gemini.is_word (Gemini.lower_char c) = true.
Proof. destruct c as [[] [] [] [] [] [] [] []]; vm_compute; trivial. Qed.

Lemma lower_char_idempotent (c : ascii) :
  Gemini.lower_char (Gemini.lower_char c) = Gemini.lower_char c.
Proof. destruct c as [[] [] [] [] [] [] [] []]; vm_compute; reflexivity. Qed.

Lemma toLowerCase_word (w : string) :
  all_word w = true -> all_word (Gemini.toLowerCase w) = true.
Proof.
  induction w as [| c w IH]; simpl; [reflexivity |].
  intro H. apply andb_true_iff in H. destruct H as [Hc Hw].
  rewrite (lower_char_word c Hc), (IH Hw). reflexivity.
Qed.

Lemma toLowerCase_idempotent (w : string) :
  Gemini.toLowerCase (Gemini.toLowerCase w) = Gemini.toLowerCase w.
Proof.
  induction w as [| c w IH]; simpl; [reflexivity |].
  rewrite lower_char_idempotent, IH. reflexivity.
Qed.

(** X7: whatever the reply, the emotion returned is a non-empty word of
    letters, digits and underscores that contains no upper-case letter:
    lower-casing it again changes nothing. *)
Theorem X7_emotion_is_a_lower_case_word (response : string) :
  let e := Gemini.emotion (Gemini.parseEmotionFromResponse response) in
  e <> "" /\ all_word e = true /\ Gemini.toLowerCase e = e.
Proof.
  unfold Gemini.parseEmotionFromResponse.
  destruct (Gemini.match_tag response) as [[w rest] |] eqn:E;
    cbn [Gemini.emotion].
  - apply match_tag_Some in E. destruct E as [Hne [Hw _]].
    repeat split.
    + destruct w; [congruence | simpl; discriminate].
    + apply toLowerCase_word. exact Hw.
    + apply toLowerCase_idempotent.
  - repeat split. discriminate.
Qed.

Lemma tag_name_lower (e : Gemini.EmotionTag) :
  Gemini.toLowerCase (Gemini.tag_name e) = Gemini.tag_name e.
Proof. destruct e; reflexivity. Qed.

Lemma tag_name_recognized (e : Gemini.EmotionTag) :
  Gemini.recognized (Gemini.tag_name e) = true.
Proof. destruct e; reflexivity. Qed.

(** X8: a reply made of a recognized tag in brackets, written in any mix of
    upper and lower case, then any whitespace, then a message with no
    whitespace at its ends, is parsed back into that tag's name and that
    message. *)
Theorem X8_tagged_reply_round_trip
  (e : Gemini.EmotionTag) (w ws m : string) :
  all_word w = true ->
  Gemini.toLowerCase w = Gemini.tag_name e ->
  all_space ws = true ->
  Gemini.trim m = m ->
  let r := Gemini.parseEmotionFromResponse ("[" ++ w ++ "]" ++ ws ++ m) in
  Gemini.emotion r = Gemini.tag_name e
  /\ Gemini.recognized (Gemini.emotion r) = true
  /\ Gemini.text r = m
  /\ Gemini.rawResponse r = "[" ++ w ++ "]" ++ ws ++ m.
Proof.
  intros Hw Hl Hs Hm r. subst r. unfold Gemini.parseEmotionFromResponse.
  assert (Hne : w <> "").
  { intro E. subst w. simpl in Hl. destruct e; discriminate Hl. }
  replace (Gemini.match_tag ("[" ++ w ++ "]" ++ ws ++ m))
    with (Some (w, ws ++ m))
    by (symmetry; apply match_tag_Some; auto).
  cbn [Gemini.emotion Gemini.text Gemini.rawResponse].
  rewrite Hl. repeat split.
  - apply tag_name_recognized.
  - rewrite (trimStart_spaces ws m Hs).
    unfold Gemini.trim.
    rewrite (trimStart_fixed (Gemini.trimStart m)) by apply trimStart_first.
    exact Hm.
Qed.

Lemma X8_tagged_reply_round_trip_witness :
  Gemini.text
    (Gemini.parseEmotionFromResponse ("[" ++ "Happy" ++ "]" ++ "  " ++ "Hi there!"))
  = "Hi there!".
Proof.
  apply (X8_tagged_reply_round_trip Gemini.happy "Happy" "  " "Hi there!");
    reflexivity.
Defined.

(** * The Gemini service object *)

Lemma ready_has_session (ops : list GeminiService.Op) (s : GeminiService.Service) :
  (GeminiService.isInitialized s = true ->
   GeminiService.model s = true /\ GeminiService.chatSession s = true) ->
  let s' := GeminiService.run ops s in
  GeminiService.isInitialized s' = true ->
  GeminiService.model s' = true /\ GeminiService.chatSession s' = true.
Proof.
  unfold GeminiService.run. revert s.
  induction ops as [| op ops IH]; intros s Hs; simpl; [exact Hs |].
  apply IH. destruct op as [[| |] | t]; simpl.
  - auto.
  - exact Hs.
  - intro H. destruct (Hs H) as [_ Hc]. auto.
  - unfold GeminiService.resetChat.
    destruct (GeminiService.model s) eqn:Em.
    + destruct t; simpl.
      * intro H. destruct (Hs H) as [_ Hc]. split; [exact Em | exact Hc].
      * intro H. split; reflexivity.
    + simpl. intro H. destruct (Hs H) as [Hf _]. discriminate Hf.
Qed.

(** X9: after any sequence of [initialize] and [resetChat] calls, however
    the SDK behaved in them, a service that reports [isReady] answers
    [sendMessage] and [generateResponse] with the parsed reply (or the SDK's
    own error when the call throws), and one that does not report [isReady]
    rejects [sendMessage] with the not-initialized error whatever the
    reply would have been. *)
Theorem X9_ready_service_answers (ops : list GeminiService.Op)
  (reply : option string) :
  let s := GeminiService.run ops GeminiService.initial in
  (GeminiService.isReady s = true ->
     GeminiService.sendMessage s reply
     = match reply with
       | Some response => inr (Gemini.parseEmotionFromResponse response)
       | None => inl GeminiService.Rethrown
       end
     /\ GeminiService.generateResponse s reply
        = GeminiService.sendMessage s reply)
  /\ (GeminiService.isReady s = false ->
        GeminiService.sendMessage s reply = inl GeminiService.NotInitialized).
Proof.
  intro s. split.
  - intro Hr.
    destruct (ready_has_session ops GeminiService.initial) as [Hm Hc].
    + simpl. discriminate.
    + exact Hr.
    + fold s in Hm, Hc. unfold GeminiService.isReady in Hr.
      unfold GeminiService.sendMessage, GeminiService.generateResponse.
      rewrite Hr, Hm, Hc. simpl. split; reflexivity.
  - unfold GeminiService.isReady, GeminiService.sendMessage. intro Hr.
    rewrite Hr. reflexivity.
Qed.

(** * Further properties of the pose director *)

Close Scope string_scope.

Lemma useFrame_poseAnimRef Math_sin Math_PI (i : Avatar.FrameInput) (r : Avatar.Refs) :
  Avatar.poseAnimRef (Avatar.useFrame Math_sin Math_PI i r)
  = Avatar.poseTick (Avatar.isSpeaking i) (Avatar.currentEmotion i)
      (Avatar.delta i) (Avatar.rndPose i) (Avatar.poseAnimRef r).
Proof.
  unfold Avatar.useFrame.
  destruct (Avatar.blinkTick _ _ _ _ _ _ _) as [b em2].
  destruct (Avatar.emotionFrame _ _ _ _) as [e em3]. reflexivity.
Qed.

Lemma poseTick_ok (isSpeaking : bool) (label : Gemini.EmotionTag)
  (delta random : Q) (p : Avatar.PoseAnim) :
  Avatar.is_random random -> 0 <= delta ->
  pose_ok p -> pose_ok (Avatar.poseTick isSpeaking label delta random p).
Proof.
  intros Hr Hd [Hc [Ht [Hb Hp]]].
  unfold pose_ok, Avatar.poseTick, Avatar.poseDecide.
  destruct (JS.ltb (Avatar.poseChangeInterval isSpeaking)
                   (Avatar.poseTimer p + delta)) eqn:E.
  - unfold Avatar.poseBlend. cbn [Avatar.blendFactor].
    replace (JS.ltb 0 1) with true by reflexivity.
    cbn [Avatar.currentPoseIndex Avatar.targetPoseIndex Avatar.blendFactor
         Avatar.poseTimer].
    split; [exact Ht |]. split.
    + apply noRepeat_in_catalog, choosePose_in_catalog, Hr.
    + assert (Hq : delta / Avatar.blendSpeed == delta * (10 # 15))
        by (unfold Qdiv; reflexivity).
      split; [| lra]. minmax; lra.
  - apply ltb_false in E.
    assert (Hi : Avatar.poseChangeInterval isSpeaking <= 5)
      by (destruct isSpeaking; simpl; lra).
    unfold Avatar.poseBlend. cbn [Avatar.blendFactor].
    destruct (JS.ltb (Avatar.blendFactor p) 1) eqn:Eb;
      cbn [Avatar.currentPoseIndex Avatar.targetPoseIndex Avatar.blendFactor
           Avatar.poseTimer].
    + assert (Hq : delta / Avatar.blendSpeed == delta * (10 # 15))
        by (unfold Qdiv; reflexivity).
      repeat split; try assumption; try lra; minmax; lra.
    + repeat split; try assumption; lra.
Qed.

(** X10: along every sequence of frames from the initial state, with random
    draws in [0,1) and frame times that are not negative, both pose indices
    address one of the five catalog poses, the blend factor stays in [0,1]
    and the pose timer stays between 0 and 5 seconds. *)
Theorem X10_pose_state_stays_sound
  Math_sin Math_PI (inputs : list Avatar.FrameInput) :
  Forall (fun i => Avatar.is_random (Avatar.rndPose i) /\ 0 <= Avatar.delta i)
         inputs ->
  pose_ok (Avatar.poseAnimRef (Avatar.frames Math_sin Math_PI inputs Avatar.refs0)).
Proof.
  intro Hall.
  assert (H0 : pose_ok (Avatar.poseAnimRef Avatar.refs0)).
  { unfold pose_ok. simpl. repeat split; try lia; lra. }
  revert H0. generalize Avatar.refs0.
  induction Hall as [| i rest [Hr Hd] Hrest IH]; intros r Hok; simpl.
  - exact Hok.
  - apply IH. rewrite useFrame_poseAnimRef. apply poseTick_ok; assumption.
Qed.

Lemma X10_pose_state_stays_sound_witness :
  pose_ok
    (Avatar.poseAnimRef
       (Avatar.frames (fun _ => 0) 0
          [Avatar.mkInput true 0 Gemini.neutral 3 0 0 0 0 (9 # 10);
           Avatar.mkInput false 0 Gemini.sad 6 0 0 0 0 (1 # 2)]
          Avatar.refs0)).
Proof.
  apply X10_pose_state_stays_sound.
  repeat constructor; simpl; unfold Qle, Qlt; simpl; lia.
Defined.

Lemma cube_le (a b : Q) : a <= b -> a * a * a <= b * b * b.
Proof.
  intro H.
  assert (Hs : 0 <= (a + b) * (a + b) + a * a + b * b) by nra.
  assert (Hp : 0 <= (b - a) * ((a + b) * (a + b) + a * a + b * b)) by nra.
  nra.
Qed.

Lemma ease_low (t : Q) :
  t < 0.5 -> Avatar.easeInOutCubic t = 4 * t * t * t.
Proof.
  intro H. unfold Avatar.easeInOutCubic.
  apply ltb_true in H. rewrite H. reflexivity.
Qed.

Lemma ease_high (t : Q) :
  0.5 <= t ->
  Avatar.easeInOutCubic t
  = 1 - ((-2 * t + 2) * (-2 * t + 2) * (-2 * t + 2)) / 2.
Proof.
  intro H. unfold Avatar.easeInOutCubic.
  apply ltb_false in H. rewrite H. reflexivity.
Qed.

Lemma ease_monotone (a b : Q) :
  a <= b -> Avatar.easeInOutCubic a <= Avatar.easeInOutCubic b.
Proof.
  intro H.
  assert (Hdiv : forall u, u / 2 == u * (1 # 2)) by (intro; unfold Qdiv; reflexivity).
  destruct (Qlt_le_dec a 0.5) as [Ha | Ha];
    destruct (Qlt_le_dec b 0.5) as [Hb | Hb].
  - rewrite (ease_low a Ha), (ease_low b Hb).
    pose proof (cube_le a b H). lra.
  - rewrite (ease_low a Ha), (ease_high b Hb), Hdiv.
    pose proof (cube_le a 0.5 ltac:(lra)) as H1.
    pose proof (cube_le (-2 * b + 2) 1 ltac:(lra)) as H2.
    lra.
  - lra.
  - rewrite (ease_high a Ha), (ease_high b Hb), !Hdiv.
    pose proof (cube_le (-2 * b + 2) (-2 * a + 2) ltac:(lra)). lra.
Qed.


(** X11: the easing curve starts at 0 and ends at 1, never decreases, stays
    in [0,1] on [0,1] and is symmetric about the midpoint:
    [ease(1 - t) = 1 - ease(t)]. *)
Theorem X11_easing_curve_shape :
  Avatar.easeInOutCubic 0 == 0
  /\ Avatar.easeInOutCubic 1 == 1
  /\ (forall a b, a <= b -> Avatar.easeInOutCubic a <= Avatar.easeInOutCubic b)
  /\ (forall t, 0 <= t <= 1 -> 0 <= Avatar.easeInOutCubic t <= 1)
  /\ (forall t, Avatar.easeInOutCubic (1 - t) == 1 - Avatar.easeInOutCubic t).
Proof.
  assert (H0 : Avatar.easeInOutCubic 0 == 0) by (vm_compute; reflexivity).
  assert (H1 : Avatar.easeInOutCubic 1 == 1) by (vm_compute; reflexivity).
  assert (Hdiv : forall u, u / 2 == u * (1 # 2)) by (intro; unfold Qdiv; reflexivity).
  repeat split; try assumption.
  - apply ease_monotone.
  - rewrite <- H0. apply ease_monotone. tauto.
  - rewrite <- H1. apply ease_monotone. tauto.
  - intro t. destruct (Qlt_le_dec t 0.5) as [Ht | Ht].
    + rewrite (ease_low t Ht), (ease_high (1 - t)) by lra. rewrite Hdiv. nra.
    + destruct (Qlt_le_dec (1 - t) 0.5) as [Ht' | Ht'].
      * rewrite (ease_low (1 - t) Ht'), (ease_high t Ht). rewrite Hdiv. nra.
      * rewrite (ease_high (1 - t) Ht'), (ease_high t Ht). rewrite !Hdiv.
        assert (Et : t == 1 # 2) by lra. rewrite Et. vm_compute. reflexivity.
Qed.











Lemma Qfloor_unique (q : Q) (k : Z) :
  inject_Z k <= q -> q < inject_Z (k + 1) -> Qfloor q = k.
Proof.
  intros Hlo Hhi.
  assert (H1 : (k <= Qfloor q)%Z).
  { rewrite <- (Qfloor_Z k). apply Qfloor_resp_le. exact Hlo. }
  assert (H2 : (Qfloor q < k + 1)%Z).
  { rewrite Zlt_Qlt. pose proof (Qfloor_le q). lra. }
  lia.
Qed.

Lemma pick_slot (arr : list nat) (random : Q) (k : nat) :
  inject_Z (Z.of_nat k) <= random * inject_Z (Z.of_nat (List.length arr)) ->
  random * inject_Z (Z.of_nat (List.length arr)) < inject_Z (Z.of_nat k + 1) ->
  Avatar.pick arr random = nth k arr 0%nat.
Proof.
  intros Hlo Hhi. unfold Avatar.pick, JS.Math_floor.
  rewrite (Qfloor_unique _ (Z.of_nat k) Hlo Hhi). rewrite Nat2Z.id. reflexivity.
Qed.

(** X14: which pose a draw selects.  For a draw [r] in [0,1), the speaking
    choice is ArmsCrossed (1) below a third, Waving (2) from one third to
    two thirds and TouchingHead (4) from two thirds on; the idle choice is
    Relaxed (0) below 2/5, TouchingHead (4) from 2/5 to 4/5 and ArmsCrossed
    (1) from 4/5 on, so the first two are twice as likely as the third.
    Each upper boundary is stated [2^-50] short, which covers the rounding
    of the product [r * length] in doubles. *)
Theorem X14_pose_choice_by_draw (r : Q) :
  Avatar.is_random r ->
  let eps := 1 # 1125899906842624 in
  (r <= (1 # 3) - eps -> Avatar.pick Avatar.speakingPoses r = 1%nat)
  /\ (1 # 3 <= r -> r <= (2 # 3) - eps ->
      Avatar.pick Avatar.speakingPoses r = 2%nat)
  /\ (2 # 3 <= r -> Avatar.pick Avatar.speakingPoses r = 4%nat)
  /\ (r <= (2 # 5) - eps -> Avatar.pick Avatar.idlePoses r = 0%nat)
  /\ (2 # 5 <= r -> r <= (4 # 5) - eps ->
      Avatar.pick Avatar.idlePoses r = 4%nat)
  /\ (4 # 5 <= r -> Avatar.pick Avatar.idlePoses r = 1%nat).
Proof.
  intros [H0 H1] eps.
  assert (Heps : 0 < eps) by reflexivity.
  assert (Hcase : forall (arr : list nat) (k : nat),
            inject_Z (Z.of_nat k) <= r * inject_Z (Z.of_nat (List.length arr)) ->
            r * inject_Z (Z.of_nat (List.length arr)) < inject_Z (Z.of_nat k + 1) ->
            Avatar.pick arr r = nth k arr 0%nat)
    by (intros; apply pick_slot; assumption).
  repeat split; intros.
  - apply (Hcase Avatar.speakingPoses 0%nat); unfold inject_Z; simpl; lra.
  - apply (Hcase Avatar.speakingPoses 1%nat); unfold inject_Z; simpl; lra.
  - apply (Hcase Avatar.speakingPoses 2%nat); unfold inject_Z; simpl; lra.
  - destruct (Qlt_le_dec r (1 # 5)).
    + apply (Hcase Avatar.idlePoses 0%nat); unfold inject_Z; simpl; lra.
    + apply (Hcase Avatar.idlePoses 1%nat); unfold inject_Z; simpl; lra.
  - destruct (Qlt_le_dec r (3 # 5)).
    + apply (Hcase Avatar.idlePoses 2%nat); unfold inject_Z; simpl; lra.
    + apply (Hcase Avatar.idlePoses 3%nat); unfold inject_Z; simpl; lra.
  - apply (Hcase Avatar.idlePoses 4%nat); unfold inject_Z; simpl; lra.
Qed.

Lemma X14_pose_choice_by_draw_witness :
  Avatar.pick Avatar.idlePoses (1 # 2) = 4%nat.
Proof.
  destruct (X14_pose_choice_by_draw (1 # 2)) as [_ [_ [_ [_ [H _]]]]].
  - split; discriminate || reflexivity.
  - apply H; discriminate.
Defined.

(** X15: while the avatar is not speaking and the emotion is one with a
    fixed pose (3 for shy and embarrassed, 1 for angry, annoyed and proud,
    2 for excited and happy), a decision selects that pose unless it is the
    current target, in which case it selects the next pose of the catalog:
    under a held emotion the targets alternate between the two. *)
Theorem X15_fixed_emotion_pose_alternates
  (label : Gemini.EmotionTag) (delta random : Q) (p : Avatar.PoseAnim) :
  Avatar.decides false delta p = true ->
  let t := Avatar.targetPoseIndex p in
  let t' := Avatar.targetPoseIndex (Avatar.poseTick false label delta random p) in
  (label = Gemini.shy \/ label = Gemini.embarrassed ->
     t' = if Nat.eqb t 3 then 4%nat else 3%nat)
  /\ (label = Gemini.angry \/ label = Gemini.annoyed \/ label = Gemini.proud ->
     t' = if Nat.eqb t 1 then 2%nat else 1%nat)
  /\ (label = Gemini.excited \/ label = Gemini.happy ->
     t' = if Nat.eqb t 2 then 3%nat else 2%nat).
Proof.
  intros Hd. cbv zeta.
  destruct (poseTick_decided false label delta random p Hd) as [_ Ht].
  rewrite Ht.
  assert (Hn : forall n c,
            Avatar.noRepeat n c
            = if Nat.eqb c n then ((n + 1) mod 5)%nat else n).
  { intros n c. unfold Avatar.noRepeat. rewrite (Nat.eqb_sym n c). reflexivity. }
  rewrite Hn.
  repeat split; intro Hl;
    repeat (destruct Hl as [Hl | Hl]); subst label;
    unfold Avatar.choosePose;
    destruct (Nat.eqb (Avatar.targetPoseIndex p) _); reflexivity.
Qed.

Lemma X15_fixed_emotion_pose_alternates_witness :
  Avatar.targetPoseIndex
    (Avatar.poseTick false Gemini.shy 6 0
       (Avatar.mkPoseAnim 0 3 1 0 0 Avatar.poseShy))
  = 4%nat.
Proof.
  destruct (X15_fixed_emotion_pose_alternates Gemini.shy 6 0
              (Avatar.mkPoseAnim 0 3 1 0 0 Avatar.poseShy) eq_refl)
    as [H _].
  exact (H (or_introl eq_refl)).
Defined.

(** * Further properties of the blink scheduler *)

Lemma blinkTick_rest Math_sin Math_PI (delta r1 r2 : Q)
  (b : Avatar.BlinkState) (em : Avatar.ExpressionManager) :
  blink_rest b em ->
  blink_rest (fst (Avatar.blinkTick Math_sin Math_PI delta r1 r2 b em))
             (snd (Avatar.blinkTick Math_sin Math_PI delta r1 r2 b em)).
Proof.
  unfold blink_rest, Avatar.blinkTick. intro H.
  destruct (JS.leb (Avatar.timer b - delta) 0 && negb (Avatar.isBlinking b));
    cbn [Avatar.isBlinking Avatar.timer].
  - destruct (JS.leb 1 _); cbn [fst snd Avatar.isBlinking].
    + intros _. vm_compute. reflexivity.
    + discriminate.
  - destruct (Avatar.isBlinking b) eqn:Eb; cbn [fst snd Avatar.isBlinking].
    + destruct (JS.leb 1 _); cbn [fst snd Avatar.isBlinking].
      * intros _. vm_compute. reflexivity.
      * discriminate.
    + intros _. apply H. reflexivity.
Qed.

Lemma useFrame_blink Math_sin Math_PI (i : Avatar.FrameInput) (r : Avatar.Refs) :
  let bt := Avatar.blinkTick Math_sin Math_PI (Avatar.delta i)
              (Avatar.rndBlinkStart i) (Avatar.rndBlinkEnd i) (Avatar.blinkRef r)
              (Avatar.applyMouth
                 (Avatar.lipSyncTick Math_sin (Avatar.isSpeaking i)
                    (Avatar.audioLevel i) (Avatar.time i) (Avatar.rndLip i)
                    (Avatar.lipSyncRef r))
                 (Avatar.expressionManager r)) in
  Avatar.blinkRef (Avatar.useFrame Math_sin Math_PI i r) = fst bt
  /\ Avatar.expressionManager (Avatar.useFrame Math_sin Math_PI i r) Avatar.Blink
     = snd bt Avatar.Blink.
Proof.
  intro bt. subst bt. unfold Avatar.useFrame.
  destruct (Avatar.blinkTick _ _ _ _ _ _ _) as [b em2].
  pose proof (emotionFrame_mouth (Avatar.currentEmotion i) (Avatar.delta i)
                (Avatar.emotionRef r) em2) as [_ [_ Hb]].
  destruct (Avatar.emotionFrame _ _ _ _) as [e em3]. simpl in *.
  split; [reflexivity | exact Hb].
Qed.

(** X16: along every sequence of frames from the initial state, whatever
    the inputs and the random draws, the eyelid weight held by the
    expression manager is 0 whenever no blink is in progress. *)
Theorem X16_eyelid_weight_zero_at_rest
  Math_sin Math_PI (inputs : list Avatar.FrameInput) :
  let r := Avatar.frames Math_sin Math_PI inputs Avatar.refs0 in
  Avatar.isBlinking (Avatar.blinkRef r) = false ->
  Avatar.getValue (Avatar.expressionManager r) Avatar.Blink == 0.
Proof.
  cbv zeta.
  assert (H0 : blink_rest (Avatar.blinkRef Avatar.refs0)
                          (Avatar.expressionManager Avatar.refs0)).
  { unfold blink_rest. intros _. reflexivity. }
  revert H0. generalize Avatar.refs0.
  induction inputs as [| i rest IH]; intros r Hr; simpl.
  - exact Hr.
  - apply IH. destruct (useFrame_blink Math_sin Math_PI i r) as [Hb Hw].
    unfold blink_rest, Avatar.getValue. rewrite Hb, Hw.
    apply blinkTick_rest.
    unfold blink_rest, Avatar.getValue, Avatar.applyMouth, Avatar.setValue.
    simpl. exact Hr.
Qed.

Lemma X16_eyelid_weight_zero_at_rest_witness :
  Avatar.getValue
    (Avatar.expressionManager
       (Avatar.frames (fun _ => 1) 1
          (repeat (Avatar.mkInput false 0 Gemini.neutral 1 0 0 0 0 0) 4)
          Avatar.refs0))
    Avatar.Blink == 0.
Proof.
  apply (X16_eyelid_weight_zero_at_rest (fun _ => 1) 1
           (repeat (Avatar.mkInput false 0 Gemini.neutral 1 0 0 0 0 0) 4)).
  vm_compute. reflexivity.
Defined.

(** X18: the frame on which the timer runs out changes phase and draws the
    next timer between 2 and 6 seconds: a pause turns into a blink with
    timer [2 + 4 r1], and a blink turns into a pause with timer [2 + 4 r2]
    and the eyelid weight set to 0. *)
Theorem X18_blink_phase_change_draws_two_to_six_seconds
  Math_sin Math_PI (delta random1 random2 : Q)
  (b : Avatar.BlinkState) (em : Avatar.ExpressionManager) :
  Avatar.is_random random1 ->
  Avatar.is_random random2 ->
  Avatar.timer b - delta <= 0 ->
  let r := Avatar.blinkTick Math_sin Math_PI delta random1 random2 b em in
  2 <= Avatar.timer (fst r) /\ Avatar.timer (fst r) <= 6
  /\ Avatar.isBlinking (fst r) = negb (Avatar.isBlinking b)
  /\ (Avatar.isBlinking b = false -> Avatar.timer (fst r) = 2 + random1 * 4)
  /\ (Avatar.isBlinking b = true ->
      Avatar.timer (fst r) = 2 + random2 * 4
      /\ Avatar.getValue (snd r) Avatar.Blink == 0).
Proof.
  intros Hr1 Hr2 Ht r. subst r.
  destruct (Avatar.isBlinking b) eqn:Eb.
  - assert (E : Avatar.blinkTick Math_sin Math_PI delta random1 random2 b em
                = ({| Avatar.timer := 2 + random2 * 4;
                      Avatar.isBlinking := false |},
                   Avatar.setValue em Avatar.Blink 0)).
    { unfold Avatar.blinkTick. rewrite Eb, andb_false_r.
      cbn [Avatar.isBlinking Avatar.timer].
      replace (JS.leb 1 (1 - (Avatar.timer b - delta) / 0.15)) with true;
        [reflexivity |].
      symmetry. apply leb_true.
      assert (H : (Avatar.timer b - delta) / 0.15
                  == (Avatar.timer b - delta) * (100 # 15))
        by (unfold Qdiv; reflexivity).
      rewrite H. lra. }
    rewrite E. cbn [fst snd Avatar.timer Avatar.isBlinking negb].
    destruct Hr2 as [H0 H1].
    repeat split; try lra; try discriminate.
  - rewrite (blink_onset Math_sin Math_PI delta random1 random2 b em Hr1 Eb Ht).
    cbn [Avatar.timer Avatar.isBlinking negb]. destruct Hr1 as [H0 H1].
    repeat split; try lra; discriminate.
Qed.

Lemma X18_blink_phase_change_draws_two_to_six_seconds_witness :
  Avatar.timer
    (fst (Avatar.blinkTick (fun _ => 0) 0 (1 # 60) (1 # 2) 0
            Avatar.blink0 Avatar.no_expression))
  <= 6.
Proof.
  apply (X18_blink_phase_change_draws_two_to_six_seconds (fun _ => 0) 0
           (1 # 60) (1 # 2) 0 Avatar.blink0 Avatar.no_expression).
  - split; discriminate || reflexivity.
  - split; discriminate || reflexivity.
  - discriminate.
Defined.

(** * Further properties of the emotion blender *)

Lemma blinkTick_other Math_sin Math_PI (delta r1 r2 : Q)
  (b : Avatar.BlinkState) (em : Avatar.ExpressionManager)
  (p : Avatar.VRMExpressionPresetName) :
  Avatar.preset_eqb p Avatar.Blink = false ->
  snd (Avatar.blinkTick Math_sin Math_PI delta r1 r2 b em) p = em p.
Proof.
  intro Hp. unfold Avatar.blinkTick.
  destruct (JS.leb (Avatar.timer b - delta) 0 && negb (Avatar.isBlinking b));
    cbn [Avatar.isBlinking Avatar.timer].
  - destruct (JS.leb 1 _); cbn [snd]; unfold Avatar.setValue; rewrite Hp;
      reflexivity.
  - destruct (Avatar.isBlinking b); cbn [snd]; [| reflexivity].
    destruct (JS.leb 1 _); cbn [snd]; unfold Avatar.setValue; rewrite Hp;
      reflexivity.
Qed.

Lemma fade_all_local (delta : Q) (em1 em2 : Avatar.ExpressionManager)
  (p : Avatar.VRMExpressionPresetName) :
  em1 p = em2 p -> Avatar.fade_all delta em1 p = Avatar.fade_all delta em2 p.
Proof.
  intro H.
  destruct p;
    try (rewrite !fade_all_other by (simpl; intuition discriminate); exact H);
    rewrite !fade_all_at by (simpl; tauto);
    rewrite !fade_one_same, H; reflexivity.
Qed.

Lemma apply_emotion_other (l : Gemini.EmotionTag) (blend : Q)
  (em : Avatar.ExpressionManager) (p : Avatar.VRMExpressionPresetName) :
  targets l p = false -> Avatar.apply_emotion l blend em p = em p.
Proof.
  unfold targets, Avatar.apply_emotion. intro H.
  destruct (Avatar.emotionToVRMExpression l) as [q |].
  - unfold Avatar.setValue. rewrite H. reflexivity.
  - destruct (Gemini.EmotionTag_eqb l Gemini.embarrassed
              || Gemini.EmotionTag_eqb l Gemini.shy); [| reflexivity].
    simpl in H. unfold Avatar.setValue. rewrite H. reflexivity.
Qed.

(** What a whole frame does to an emotion preset the label does not
    target: it fades it, from the weight it had. *)
Lemma useFrame_untargeted Math_sin Math_PI (i : Avatar.FrameInput)
  (r : Avatar.Refs) (p : Avatar.VRMExpressionPresetName) :
  Avatar.preset_eqb p Avatar.Aa = false ->
  Avatar.preset_eqb p Avatar.Oh = false ->
  Avatar.preset_eqb p Avatar.Blink = false ->
  targets (Avatar.currentEmotion i) p = false ->
  Avatar.expressionManager (Avatar.useFrame Math_sin Math_PI i r) p
  = Avatar.fade_all (Avatar.delta i) (Avatar.expressionManager r) p.
Proof.
  intros Ha Ho Hb Ht. unfold Avatar.useFrame.
  set (em1 := Avatar.applyMouth _ _).
  pose proof (blinkTick_other Math_sin Math_PI (Avatar.delta i)
                (Avatar.rndBlinkStart i) (Avatar.rndBlinkEnd i)
                (Avatar.blinkRef r) em1 p Hb) as H2.
  destruct (Avatar.blinkTick _ _ _ _ _ _ _) as [b em2]. cbn [snd] in H2.
  unfold Avatar.emotionFrame. cbn [Avatar.expressionManager].
  rewrite (apply_emotion_other _ _ _ p Ht).
  apply fade_all_local. rewrite H2. subst em1.
  unfold Avatar.applyMouth, Avatar.setValue. rewrite Ha, Ho. reflexivity.
Qed.

(** X19: the Neutral preset is never faded.  Over any frames whose label is
    not [neutral], whatever else they carry, its weight stays what it was:
    once raised under the label [neutral], it is not lowered again. *)
Theorem X19_neutral_preset_is_never_lowered
  Math_sin Math_PI (inputs : list Avatar.FrameInput) (r : Avatar.Refs) :
  Forall (fun i => Avatar.currentEmotion i <> Gemini.neutral) inputs ->
  Avatar.getValue
    (Avatar.expressionManager (Avatar.frames Math_sin Math_PI inputs r))
    Avatar.Neutral
  = Avatar.getValue (Avatar.expressionManager r) Avatar.Neutral.
Proof.
  intro Hall. revert r.
  induction Hall as [| i rest Hi Hrest IH]; intro r; simpl; [reflexivity |].
  rewrite IH. unfold Avatar.getValue.
  rewrite useFrame_untargeted; try reflexivity.
  - apply fade_all_other. simpl. intuition discriminate.
  - unfold targets. destruct (Avatar.currentEmotion i); try reflexivity.
    congruence.
Qed.

Lemma X19_neutral_preset_is_never_lowered_witness :
  Avatar.getValue
    (Avatar.expressionManager
       (Avatar.frames (fun _ => 0) 0
          (repeat (Avatar.mkInput false 0 Gemini.angry 1 0 0 0 0 0) 3)
          (Avatar.frames (fun _ => 0) 0
             [Avatar.mkInput false 0 Gemini.neutral 1 0 0 0 0 0] Avatar.refs0)))
    Avatar.Neutral
  == 0.7.
Proof.
  rewrite (X19_neutral_preset_is_never_lowered (fun _ => 0) 0
             (repeat (Avatar.mkInput false 0 Gemini.angry 1 0 0 0 0 0) 3)).
  - vm_compute. reflexivity.
  - repeat constructor; discriminate.
Defined.








(** * Further properties of the lip sync *)

Lemma lipSyncTick_value_range Math_sin (isSpeaking : bool)
  (audioLevel time random : Q) (ls : Avatar.LipSync) :
  0 <= Avatar.value ls <= 1 ->
  0 <= Avatar.value
         (Avatar.lipSyncTick Math_sin isSpeaking audioLevel time random ls) <= 1.
Proof.
  intro H. unfold Avatar.lipSyncTick.
  destruct (isSpeaking && JS.ltb 0 audioLevel).
  - unfold Avatar.lipSync_real. cbn [Avatar.value]. minmax; lra.
  - destruct isSpeaking.
    + unfold Avatar.lipSync_simulated. cbn [Avatar.value]. minmax; lra.
    + unfold Avatar.lipSync_close. cbn [Avatar.value]. lra.
Qed.

(** X22: along every sequence of frames from the initial state, whatever
    the inputs, the stored mouth value stays in [0,1]; the clamp applied
    when the mouth shapes are written therefore changes nothing, and the
    two weights are the stored value times 0.9 and times 0.4. *)
Theorem X22_mouth_value_stays_in_unit_interval
  Math_sin Math_PI (inputs : list Avatar.FrameInput) :
  let ls := Avatar.lipSyncRef
              (Avatar.frames Math_sin Math_PI inputs Avatar.refs0) in
  0 <= Avatar.value ls <= 1
  /\ Avatar.mouthOpenValue ls == Avatar.value ls
  /\ Avatar.primaryOpen ls == Avatar.value ls * 0.9
  /\ Avatar.roundedOpen ls == Avatar.value ls * 0.4.
Proof.
  cbv zeta.
  assert (Hr : 0 <= Avatar.value
                      (Avatar.lipSyncRef
                         (Avatar.frames Math_sin Math_PI inputs Avatar.refs0))
               <= 1).
  { assert (H0 : 0 <= Avatar.value (Avatar.lipSyncRef Avatar.refs0) <= 1)
      by (simpl; lra).
    revert H0. generalize Avatar.refs0.
    induction inputs as [| i rest IH]; intros r H; simpl; [exact H |].
    apply IH. rewrite useFrame_lipSyncRef. apply lipSyncTick_value_range, H. }
  assert (Hm : Avatar.mouthOpenValue
                 (Avatar.lipSyncRef
                    (Avatar.frames Math_sin Math_PI inputs Avatar.refs0))
               == Avatar.value
                    (Avatar.lipSyncRef
                       (Avatar.frames Math_sin Math_PI inputs Avatar.refs0))).
  { unfold Avatar.mouthOpenValue. minmax; lra. }
  unfold Avatar.primaryOpen, Avatar.roundedOpen.
  repeat split; try tauto; try exact Hm; rewrite Hm; reflexivity.
Qed.

Lemma speaking_step Math_sin (a time random : Q) (ls : Avatar.LipSync) :
  0 < a ->
  Avatar.lipSyncTick Math_sin true a time random ls
  = Avatar.lipSync_real Math_sin a time ls.
Proof.
  intro Ha. unfold Avatar.lipSyncTick. apply ltb_true in Ha. rewrite Ha.
  reflexivity.
Qed.

(** X23: while speaking at a fixed positive audio level [a <= 1], with a
    sine bounded by 1 in size, [n] frames bring the smoothed level from
    [s] in [0,1] to [a + (s - a) * 0.4^n], and after each frame the mouth
    value is within 0.1 of the smoothed level. *)
Theorem X23_speaking_level_converges
  Math_sin (a : Q) (frames : list (Q * Q)) (ls : Avatar.LipSync) :
  (forall t, -1 <= Math_sin t <= 1) ->
  0 < a -> a <= 1 ->
  0 <= Avatar.smoothedLevel ls <= 1 ->
  let ls' := speaking Math_sin a frames ls in
  Avatar.smoothedLevel ls'
  == a + (Avatar.smoothedLevel ls - a) * powQ 0.4 (List.length frames)
  /\ 0 <= Avatar.smoothedLevel ls' <= 1
  /\ (frames <> [] ->
      Avatar.smoothedLevel ls' - 0.1 <= Avatar.value ls'
      /\ Avatar.value ls' <= Avatar.smoothedLevel ls' + 0.1).
Proof.
  intros Hsin Ha0 Ha1. unfold speaking. revert ls.
  induction frames as [| [t rnd] rest IH] using rev_ind; intros ls Hs.
  - simpl. repeat split; try lra; congruence.
  - rewrite fold_left_app. cbn [fold_left fst snd].
    rewrite length_app. cbn [List.length]. rewrite Nat.add_1_r. cbn [powQ].
    destruct (IH ls Hs) as [Hl [Hr _]].
    set (prev := fold_left _ rest ls) in *.
    rewrite speaking_step by exact Ha0.
    unfold Avatar.lipSync_real. cbn [Avatar.smoothedLevel Avatar.value].
    pose proof (Hsin (t * 15)) as Hb.
    repeat split.
    + rewrite Hl. lra.
    + lra.
    + lra.
    + minmax; lra.
    + minmax; lra.
Qed.

Lemma X23_speaking_level_converges_witness :
  Avatar.smoothedLevel
    (speaking (fun _ => 1) 1 (repeat (0, 0) 3) Avatar.lipSync0)
  == 0.936.
Proof.
  destruct (X23_speaking_level_converges (fun _ => 1) 1 (repeat (0, 0) 3)
              Avatar.lipSync0) as [H _].
  - intro t. split; discriminate.
  - reflexivity.
  - discriminate.
  - split; discriminate.
  - rewrite H. vm_compute. reflexivity.
Defined.

(** * The audio service and the lip sync together *)

Lemma normalized_silent (d : ElevenLabs.AudioFrame) :
  silent d -> ElevenLabs.normalized d == 0.
Proof.
  intros [Hl H]. unfold ElevenLabs.normalized. rewrite (average_20 d Hl).
  assert (Hs : (ElevenLabs.sum_bins d 2 20 <= 30 * 18)%Z).
  { unfold ElevenLabs.sum_bins.
    rewrite (fold_sum_le (fun i => nth i d 0%Z) (fun _ => 30%Z)).
    - rewrite fold_sum_const. simpl. lia.
    - intros i Hi. apply in_seq in Hi. apply H. lia. }
  rewrite Zle_Qle in Hs. change (inject_Z (30 * 18)) with 540 in Hs.
  set (sm := inject_Z (ElevenLabs.sum_bins d 2 20)) in *.
  assert (Hq : (sm / 18 - 30) / 150 <= 0).
  { unfold Qdiv. change (/ 18) with (1 # 18). change (/ 150) with (1 # 150).
    lra. }
  minmax; lra.
Qed.

Lemma silent_level_simulated Math_sin (a : ElevenLabs.AudioState)
  (time random : Q) (ls : Avatar.LipSync) :
  ElevenLabs.st_isPlaying a = true ->
  ElevenLabs.st_audioLevel a == 0 ->
  lipSyncOn Math_sin a time random ls
  = Avatar.lipSync_simulated Math_sin time random ls.
Proof.
  intros Hp Hl. unfold lipSyncOn, Avatar.lipSyncTick. rewrite Hp.
  replace (JS.ltb 0 (ElevenLabs.st_audioLevel a)) with false; [reflexivity |].
  symmetry. apply ltb_false. lra.
Qed.

Lemma run_silent_frames (ds : list ElevenLabs.AudioFrame) :
  forall s : ElevenLabs.Service,
  ElevenLabs.analyser s = true ->
  ElevenLabs.isPlaying s = true ->
  ElevenLabs.pending s = true ->
  ElevenLabs.currentAudioLevel s == 0 ->
  Forall silent ds ->
  List.length (snd (ElevenLabs.run s (map ElevenLabs.EvFrame ds)))
  = List.length ds
  /\ Forall (fun a => ElevenLabs.st_isPlaying a = true
                      /\ ElevenLabs.st_audioLevel a == 0)
            (snd (ElevenLabs.run s (map ElevenLabs.EvFrame ds))).
Proof.
  induction ds as [| d ds IH]; intros s Ha Hp Hq Hl Hall.
  - simpl. split; [reflexivity | constructor].
  - inversion Hall as [| d' l' Hd Hrest]; subst d' l'.
    pose proof (normalized_silent d Hd) as Hn.
    cbn [map ElevenLabs.run]. unfold ElevenLabs.step. rewrite Hq.
    unfold ElevenLabs.frame, ElevenLabs.analyze.
    cbn [ElevenLabs.analyser ElevenLabs.isPlaying]. rewrite Ha, Hp.
    cbn [negb orb].
    match goal with
    | |- context [ElevenLabs.run ?s1 (map ElevenLabs.EvFrame ds)] =>
        destruct (IH s1 eq_refl eq_refl eq_refl) as [Hlen Hout];
        [cbn [ElevenLabs.currentAudioLevel]; rewrite Hl, Hn; reflexivity
        | exact Hrest |];
        destruct (ElevenLabs.run s1 (map ElevenLabs.EvFrame ds)) as [s2 outs]
    end.
    cbn [snd] in *. split.
    + simpl. rewrite Hlen. reflexivity.
    + constructor; [| exact Hout].
      unfold ElevenLabs.notifyState.
      cbn [ElevenLabs.st_isPlaying ElevenLabs.st_audioLevel
           ElevenLabs.isPlaying ElevenLabs.currentAudioLevel].
      split; [reflexivity |]. rewrite Hl, Hn. reflexivity.
Qed.

Lemma run_after_stop (s : ElevenLabs.Service) (d : ElevenLabs.AudioFrame)
  (es : list ElevenLabs.Event) :
  ElevenLabs.run (fst (ElevenLabs.stop s))
    (ElevenLabs.EvSetup :: ElevenLabs.EvPlay d :: es)
  = (fst (ElevenLabs.run
            (ElevenLabs.mkService true true true
               (0 * 0.3 + ElevenLabs.normalized d * 0.7) true) es),
     ElevenLabs.mkAudioState true (0 * 0.3 + ElevenLabs.normalized d * 0.7)
     :: snd (ElevenLabs.run
               (ElevenLabs.mkService true true true
                  (0 * 0.3 + ElevenLabs.normalized d * 0.7) true) es)).
Proof.
  cbn [ElevenLabs.run].
  change (ElevenLabs.step (fst (ElevenLabs.stop s)) ElevenLabs.EvSetup)
    with (ElevenLabs.setupAudioContext (fst (ElevenLabs.stop s)),
          @None ElevenLabs.AudioState).
  cbv beta iota.
  change (ElevenLabs.step
            (ElevenLabs.setupAudioContext (fst (ElevenLabs.stop s)))
            (ElevenLabs.EvPlay d))
    with (ElevenLabs.mkService true true true
            (0 * 0.3 + ElevenLabs.normalized d * 0.7) true,
          Some (ElevenLabs.mkAudioState true
                  (0 * 0.3 + ElevenLabs.normalized d * 0.7))).
  cbv beta iota.
  destruct (ElevenLabs.run _ es) as [s2 outs]. reflexivity.
Qed.

(** X24: how the published audio states drive the mouth.  The state
    published by [stop()] puts the avatar's lip sync on the closing path.
    After it, a playback (audio context set up, then [onplay]) that opens
    on silent frames publishes one state per frame, each playing at level
    0, and each puts the lip sync on the simulated path although the
    analyser is running. *)
Theorem X24_published_states_drive_the_lip_sync
  (s : ElevenLabs.Service) (d : ElevenLabs.AudioFrame)
  (ds : list ElevenLabs.AudioFrame) :
  silent d ->
  Forall silent ds ->
  let stopped := ElevenLabs.stop s in
  let outs := snd (ElevenLabs.run (fst stopped)
                     (ElevenLabs.EvSetup :: ElevenLabs.EvPlay d
                      :: map ElevenLabs.EvFrame ds)) in
  (forall Math_sin time random ls,
     lipSyncOn Math_sin (snd stopped) time random ls = Avatar.lipSync_close ls)
  /\ List.length outs = S (List.length ds)
  /\ Forall (fun a =>
               ElevenLabs.st_isPlaying a = true
               /\ ElevenLabs.st_audioLevel a == 0
               /\ forall Math_sin time random ls,
                    lipSyncOn Math_sin a time random ls
                    = Avatar.lipSync_simulated Math_sin time random ls)
            outs.
Proof.
  intros Hd Hds stopped outs. split; [reflexivity |].
  subst outs stopped.
  pose proof (normalized_silent d Hd) as Hn.
  assert (Hfirst : 0 * 0.3 + ElevenLabs.normalized d * 0.7 == 0)
    by (rewrite Hn; reflexivity).
  rewrite run_after_stop. cbn [snd].
  destruct (run_silent_frames ds
              (ElevenLabs.mkService true true true
                 (0 * 0.3 + ElevenLabs.normalized d * 0.7) true)
              eq_refl eq_refl eq_refl Hfirst Hds) as [Hlen Hout].
  split.
  - simpl. rewrite Hlen. reflexivity.
  - constructor.
    + cbn [ElevenLabs.st_isPlaying ElevenLabs.st_audioLevel].
      split; [reflexivity |]. split; [exact Hfirst |].
      intros. apply silent_level_simulated; [reflexivity | exact Hfirst].
    + eapply Forall_impl; [| exact Hout].
      intros a [Hp Hl]. split; [exact Hp |]. split; [exact Hl |].
      intros. apply silent_level_simulated; assumption.
Qed.

Lemma X24_published_states_drive_the_lip_sync_witness :
  List.length
    (snd (ElevenLabs.run
            (fst (ElevenLabs.stop (ElevenLabs.mkService true true true (1 # 2) true)))
            (ElevenLabs.EvSetup :: ElevenLabs.EvPlay (repeat 10%Z 128)
             :: map ElevenLabs.EvFrame [repeat 10%Z 128])))
  = 2%nat.
Proof.
  assert (Hs : silent (repeat 10%Z 128)).
  { split; [rewrite repeat_length; lia |].
    intros i Hi. do 20 (destruct i as [| i]; [simpl; lia |]). lia. }
  apply (X24_published_states_drive_the_lip_sync
           (ElevenLabs.mkService true true true (1 # 2) true)
           (repeat 10%Z 128) [repeat 10%Z 128] Hs).
  constructor; [exact Hs | constructor].
Defined.

(** * The bone overlays *)

Lemma applyBone_plain (r : Avatar.Rot) : Rot_eq (AvatarBones.applyBone r 0 0 0) r.
Proof. unfold Rot_eq, AvatarBones.applyBone. simpl. repeat split; lra. Qed.

(** X26: with a sine bounded by 1 in size, the rotations written to the
    bones differ from the materialised pose only as follows: the spine's x
    by at most 0.01 either way, the chest's x by between 0 and 0.012, and,
    while speaking only, the head's x, y and z by at most 0.03, 0.05 and
    0.025; the other eleven bones, the remaining axes of spine and chest,
    and the head when not speaking, get the pose's rotation unchanged. *)
Theorem X26_overlays_are_small_and_local
  Math_sin (isSpeaking : bool) (time : Q) (b : AvatarBones.BreathState)
  (pose : Avatar.PoseData) :
  (forall t, -1 <= Math_sin t <= 1) ->
  let out := AvatarBones.applyPose Math_sin isSpeaking time b pose in
  (-0.01 <= Avatar.x (Avatar.spine out) - Avatar.x (Avatar.spine pose) <= 0.01
   /\ Avatar.y (Avatar.spine out) == Avatar.y (Avatar.spine pose)
   /\ Avatar.z (Avatar.spine out) == Avatar.z (Avatar.spine pose))
  /\ (0 <= Avatar.x (Avatar.chest out) - Avatar.x (Avatar.chest pose) <= 0.012
   /\ Avatar.y (Avatar.chest out) == Avatar.y (Avatar.chest pose)
   /\ Avatar.z (Avatar.chest out) == Avatar.z (Avatar.chest pose))
  /\ (-0.03 <= Avatar.x (Avatar.head out) - Avatar.x (Avatar.head pose) <= 0.03
   /\ -0.05 <= Avatar.y (Avatar.head out) - Avatar.y (Avatar.head pose) <= 0.05
   /\ -0.025 <= Avatar.z (Avatar.head out) - Avatar.z (Avatar.head pose) <= 0.025)
  /\ (isSpeaking = false -> Rot_eq (Avatar.head out) (Avatar.head pose))
  /\ Forall2 Rot_eq
       [Avatar.hips out; Avatar.leftShoulder out; Avatar.rightShoulder out;
        Avatar.leftUpperArm out; Avatar.rightUpperArm out;
        Avatar.leftLowerArm out; Avatar.rightLowerArm out;
        Avatar.leftHand out; Avatar.rightHand out;
        Avatar.leftUpperLeg out; Avatar.rightUpperLeg out]
       [Avatar.hips pose; Avatar.leftShoulder pose; Avatar.rightShoulder pose;
        Avatar.leftUpperArm pose; Avatar.rightUpperArm pose;
        Avatar.leftLowerArm pose; Avatar.rightLowerArm pose;
        Avatar.leftHand pose; Avatar.rightHand pose;
        Avatar.leftUpperLeg pose; Avatar.rightUpperLeg pose].
Proof.
  intros Hsin out. subst out. unfold AvatarBones.applyPose.
  pose proof (Hsin (AvatarBones.phase b)) as Hb.
  pose proof (Hsin (time * 2.5)) as Hx.
  pose proof (Hsin (time * 1.8)) as Hy.
  pose proof (Hsin (time * 2.2)) as Hz.
  unfold AvatarBones.speakHead.
  destruct isSpeaking;
    cbn [Avatar.spine Avatar.chest Avatar.head Avatar.hips
         Avatar.leftShoulder Avatar.rightShoulder Avatar.leftUpperArm
         Avatar.rightUpperArm Avatar.leftLowerArm Avatar.rightLowerArm
         Avatar.leftHand Avatar.rightHand Avatar.leftUpperLeg
         Avatar.rightUpperLeg];
    unfold AvatarBones.breathAmount, AvatarBones.breathExpand;
    (split; [unfold AvatarBones.applyBone; simpl; repeat split; lra |]);
    (split; [unfold AvatarBones.applyBone; simpl; repeat split; lra |]);
    (split; [unfold AvatarBones.applyBone; simpl; repeat split; lra |]);
    (split; [intro E; try discriminate E; apply applyBone_plain |]);
    repeat (constructor; [apply applyBone_plain |]); constructor.
Qed.

Lemma X26_overlays_are_small_and_local_witness :
  Rot_eq
    (Avatar.head
       (AvatarBones.applyPose (fun _ => 1) false 0 AvatarBones.breath0
          Avatar.poseWaving))
    (Avatar.head Avatar.poseWaving).
Proof.
  destruct (X26_overlays_are_small_and_local (fun _ => 1) false 0
              AvatarBones.breath0 Avatar.poseWaving) as [_ [_ [_ [H _]]]].
  - intro t. split; discriminate.
  - apply H. reflexivity.
Defined.
